(** * Evidence analyzer of tools/analyze_evidence.py

    A shallow embedding of the class [EvidenceAnalyzer]: the values that
    [json.load] hands to it, the two mutable attributes of the analyzer
    object, the three analysis methods, the assessment and recommendation
    helpers and [analyze_all]; followed by the properties of the report. *)

From Stdlib Require Import String Ascii List ZArith Lia Bool.
From Stdlib Require Import DecimalString SpecFloat Permutation.
Import ListNotations.

Local Open Scope string_scope.
Local Open Scope list_scope.
Local Open Scope Z_scope.

(** ** Python values *)

(** What [json.load] produces: [None], booleans, integers, floats, strings,
    lists and dictionaries with string keys.  A dictionary keeps its
    insertion order (it matters for [items()]); it is an association list
    and a lookup takes the first binding of a key (the keys of a real
    dictionary are distinct; nothing below needs it). Strings are sequences
    of bytes (UTF-8); the only literals searched for are ASCII. *)
#[local] Set Warnings "-register-all".
Inductive value : Type :=
| VNone
| VBool (b : bool)
| VInt (z : Z)
| VFloat (f : spec_float)
| VStr (s : string)
| VList (l : list value)
| VDict (d : list (string * value)).

(** The exceptions the methods can run into. *)
Inductive exn : Type :=
| AttributeError
| TypeError.

Fixpoint dict_get (d : list (string * value)) (key : string) : option value :=
  match d with
  | [] => None
  | (k, v) :: rest => if String.eqb k key then Some v else dict_get rest key
  end.

(** [v == s] for a string literal [s]: only a string is equal to a string. *)
Definition py_eq_str (v : value) (s : string) : bool :=
  match v with
  | VStr t => String.eqb t s
  | _ => false
  end.

(** [needle in s] on strings. *)
Fixpoint str_contains (needle s : string) : bool :=
  match s with
  | EmptyString => String.prefix needle EmptyString
  | String _ rest => String.prefix needle s || str_contains needle rest
  end.

(** Truth value of an object, as [if] and [and] test it. *)
Definition truthy (v : value) : bool :=
  match v with
  | VNone => false
  | VBool b => b
  | VInt z => negb (z =? 0)
  | VFloat (S754_zero _) => false
  | VFloat _ => true
  | VStr s => negb (String.eqb s "")
  | VList l => match l with [] => false | _ => true end
  | VDict d => match d with [] => false | _ => true end
  end.

(** [str(n)] for the length of a list. *)
Definition str_of_len {A : Type} (l : list A) : string :=
  NilEmpty.string_of_uint (Nat.to_uint (length l)).

(** ** The findings and the report *)

(** One entry of the [items] list of the epoch issue. *)
Record EpochItem : Type := mkEpochItem {
  service : value;
  account : value;
  creation_date : value;
  modification_date : value
}.

(** An issue dictionary; the constructor is its ["type"] key, the arguments
    are the remaining keys in the order the source writes them. *)
Inductive Issue : Type :=
| circle_status_error (description severity evidence : string)
| unknown_pcs_views (description : string) (affected_views : list string)
    (severity evidence : string)
| epoch_timestamps (description : string) (items : list EpochItem)
    (severity evidence : string)
| active_backup_without_validation (description : string)
    (last_backup validation_performed : value) (severity evidence : string).

Definition issue_severity (i : Issue) : string :=
  match i with
  | circle_status_error _ s _ => s
  | unknown_pcs_views _ _ s _ => s
  | epoch_timestamps _ _ s _ => s
  | active_backup_without_validation _ _ _ s _ => s
  end.

(** The [result] dictionary of one analysis method. *)
Record Group : Type := mkGroup {
  name : string;
  issues : list Issue;
  severity : string
}.

Definition append_issue (result : Group) (i : Issue) : Group :=
  mkGroup (name result) (issues result ++ [i]) (severity result).

Definition set_severity (result : Group) (s : string) : Group :=
  mkGroup (name result) (issues result) s.

Record Summary : Type := mkSummary {
  total_findings : Z;
  total_issues : Z;
  high_severity_findings : Z;
  corruption_score : Z;
  assessment : string
}.

Record Report : Type := mkReport {
  timestamp : string;
  summary : Summary;
  findings : list Group;
  recommendations : list string
}.

(** ** The analyzer object and its methods *)

(** [self]: the two attributes set by [__init__]. *)
Record EvidenceAnalyzer : Type := mkAnalyzer {
  self_findings : list Group;
  self_corruption_score : Z
}.

Definition __init__ : EvidenceAnalyzer := mkAnalyzer [] 0.

Inductive outcome (A : Type) : Type :=
| Returns (a : A)
| Raises (e : exn).
Arguments Returns {A} a.
Arguments Raises {A} e.

(** A method body: it reads and writes [self] and returns or raises; what
    it wrote before raising stays written. *)
Definition M (A : Type) : Type :=
  EvidenceAnalyzer -> outcome A * EvidenceAnalyzer.

Definition ret {A : Type} (a : A) : M A := fun self => (Returns a, self).

Definition raise {A : Type} (e : exn) : M A := fun self => (Raises e, self).

Definition bind {A B : Type} (m : M A) (k : A -> M B) : M B :=
  fun self =>
    match m self with
    | (Returns a, self') => k a self'
    | (Raises e, self') => (Raises e, self')
    end.

Declare Scope py_scope.
Delimit Scope py_scope with py.
Notation "x <- m ;; k" := (bind m (fun x => k))
  (at level 100, m at next level, right associativity) : py_scope.
Notation "m ;;; k" := (bind m (fun _ => k))
  (at level 100, right associativity) : py_scope.
Local Open Scope py_scope.

(** [self.corruption_score += n] *)
Definition add_score (n : Z) : M unit :=
  fun self =>
    (Returns tt,
     mkAnalyzer (self_findings self) (self_corruption_score self + n)).

(** [obj.get(key, default)]: only a dictionary has the method. *)
Definition py_get (obj : value) (key : string) (default : value) : M value :=
  match obj with
  | VDict d =>
      ret (match dict_get d key with Some v => v | None => default end)
  | _ => raise AttributeError
  end.

(** [obj.items()] *)
Definition py_items (obj : value) : M (list (string * value)) :=
  match obj with
  | VDict d => ret d
  | _ => raise AttributeError
  end.

(** The elements a [for] loop visits: those of a list, the keys of a
    dictionary, the characters of a string. *)
Definition py_iter (obj : value) : M (list value) :=
  match obj with
  | VList l => ret l
  | VDict d => ret (map (fun kv => VStr (fst kv)) d)
  | VStr s => ret (map (fun c => VStr (String c EmptyString)) (list_ascii_of_string s))
  | _ => raise TypeError
  end.

(** [needle in obj] for a string literal [needle]: substring of a string,
    element of a list, key of a dictionary. *)
Definition py_contains (needle : string) (obj : value) : M bool :=
  match obj with
  | VStr s => ret (str_contains needle s)
  | VList l => ret (existsb (fun x => py_eq_str x needle) l)
  | VDict d => ret (existsb (fun kv => String.eqb (fst kv) needle) d)
  | _ => raise TypeError
  end.

Definition analyze_keychain_status (data : value) : M Group :=
  let result := mkGroup "Keychain Status Analysis" [] "none" in
  status <- py_get data "status_keychain" (VDict []) ;;
  circle_status <- py_get status "circle_status" VNone ;;
  result <-
    (if py_eq_str circle_status "Error" then
       let result := append_issue result
         (circle_status_error
            "circle_status is 'Error' - indicates keychain sync failure"
            "high"
            "CloudCompromise.md Finding 1, line 115") in
       add_score 3 ;;;
       ret (set_severity result "high")
     else ret result) ;;
  view_status <- py_get status "view_status" (VDict []) ;;
  entries <- py_items view_status ;;
  let unknown_views :=
    map fst (filter (fun kv => py_eq_str (snd kv) "unknown") entries) in
  result <-
    (match unknown_views with
     | _ :: _ =>
         let result := append_issue result
           (unknown_pcs_views
              (str_of_len unknown_views ++ " PCS views showing 'unknown' status")
              unknown_views
              (if (5 <? Z.of_nat (length unknown_views)) then "high" else "medium")
              "CloudCompromise.md Finding 1, lines 117-127") in
         add_score (Z.of_nat (length unknown_views)) ;;;
         ret (set_severity result "high")
     | [] => ret result
     end) ;;
  ret result.

(** The body of the [for] loop of [analyze_timestamps], run over the
    remaining items with the [epoch_items] collected so far. *)
Fixpoint collect_epoch_items (todo : list value) (epoch_items : list EpochItem)
  : M (list EpochItem) :=
  match todo with
  | [] => ret epoch_items
  | item :: rest =>
      created <- py_get item "creation_date" (VStr "") ;;
      modified <- py_get item "modification_date" (VStr "") ;;
      in_created <- py_contains "1970-01-01" created ;;
      hit <- (if in_created then ret true
              else py_contains "1970-01-01" modified) ;;
      epoch_items <-
        (if hit then
           service <- py_get item "service" VNone ;;
           account <- py_get item "account" VNone ;;
           ret (epoch_items ++ [mkEpochItem service account created modified])
         else ret epoch_items) ;;
      collect_epoch_items rest epoch_items
  end.

Definition analyze_timestamps (data : value) : M Group :=
  let result := mkGroup "Timestamp Validation" [] "none" in
  keychain_items <- py_get data "keychain_items" (VList []) ;;
  todo <- py_iter keychain_items ;;
  epoch_items <- collect_epoch_items todo [] ;;
  result <-
    (match epoch_items with
     | _ :: _ =>
         let result := append_issue result
           (epoch_timestamps
              ("Found " ++ str_of_len epoch_items
                 ++ " keychain items with epoch timestamps")
              epoch_items
              "high"
              "CloudCompromise.md Finding 2, line 145") in
         add_score (Z.of_nat (length epoch_items) * 2) ;;;
         ret (set_severity result "high")
     | [] => ret result
     end) ;;
  ret result.

Definition analyze_backup_metadata (data : value) : M Group :=
  let result := mkGroup "Backup Activity Analysis" [] "none" in
  metadata <- py_get data "backup_metadata" (VDict []) ;;
  integrity <- py_get data "integrity_checks" (VDict []) ;;
  sync_active <- py_get metadata "SyncZoneFetched" (VBool false) ;;
  last_backup <- py_get metadata "NilBackupDateFetchDate" VNone ;;
  result <-
    (if truthy sync_active && truthy last_backup then
       validation_performed <- py_get integrity "keychain_validated" (VBool false) ;;
       let result := append_issue result
         (active_backup_without_validation
            "iCloud backup is active but no validation performed"
            last_backup
            validation_performed
            "high"
            "CloudCompromise.md Finding 3, lines 159-167") in
       add_score 2 ;;;
       ret (set_severity result "high")
     else ret result) ;;
  ret result.

Definition _assess_corruption_level : M string :=
  fun self =>
    (Returns
       (if 10 <=? self_corruption_score self then
          "SEVERE - Multiple corruption indicators present"
        else if 5 <=? self_corruption_score self then
          "MODERATE - Significant corruption detected"
        else if 0 <? self_corruption_score self then
          "MILD - Some issues detected"
        else
          "CLEAN - No corruption indicators found"),
     self).

Definition _generate_recommendations : M (list string) :=
  fun self =>
    let recommendations := [] in
    let recommendations :=
      if 0 <? self_corruption_score self then
        recommendations ++
          ["DO NOT restore from this backup to new devices";
           "Collect sysdiagnose for documentation";
           "Contact Apple Support with case reference";
           "Consider creating new clean backup after remediation"]
      else recommendations in
    let recommendations :=
      if 10 <=? self_corruption_score self then
        "URGENT: Severe corruption detected - avoid using this backup"
          :: recommendations
      else recommendations in
    (Returns recommendations, self).

(** [self.findings.append(r)] *)
Definition append_finding (r : Group) : M unit :=
  fun self =>
    (Returns tt,
     mkAnalyzer (self_findings self ++ [r]) (self_corruption_score self)).

(** The two assignments that open [analyze_all]. [self.findings] is bound
    to a new list: the list inside an earlier report is not touched. *)
Definition reset : M unit :=
  fun self => (Returns tt, mkAnalyzer [] 0).

Definition get_self : M EvidenceAnalyzer := fun self => (Returns self, self).

Definition sum_Z (l : list Z) : Z := fold_right Z.add 0 l.

(** [analyze_all]; [now] is what [datetime.utcnow().isoformat()] reads. *)
Definition analyze_all (now : string) (data : value) : M Report :=
  reset ;;;
  r <- analyze_keychain_status data ;;
  append_finding r ;;;
  r <- analyze_timestamps data ;;
  append_finding r ;;;
  r <- analyze_backup_metadata data ;;
  append_finding r ;;;
  self <- get_self ;;
  let total_issues :=
    sum_Z (map (fun f => Z.of_nat (length (issues f))) (self_findings self)) in
  let high_severity :=
    sum_Z (map (fun _ => 1)
             (filter (fun f => String.eqb (severity f) "high") (self_findings self))) in
  label <- _assess_corruption_level ;;
  recs <- _generate_recommendations ;;
  ret (mkReport now
         (mkSummary (Z.of_nat (length (self_findings self)))
            total_issues
            high_severity
            (self_corruption_score self)
            label)
         (self_findings self)
         recs).

(** ** Reading a snapshot *)

(** The section or field stored under [key], if [obj] is a dictionary that
    has it. *)
Definition field (obj : value) (key : string) : option value :=
  match obj with
  | VDict d => dict_get d key
  | _ => None
  end.

Definition field_or (obj : value) (key : string) (default : value) : value :=
  match field obj key with
  | Some v => v
  | None => default
  end.

Definition entries_of (obj : value) : list (string * value) :=
  match obj with
  | VDict d => d
  | _ => []
  end.

Definition status_of (data : value) : value :=
  field_or data "status_keychain" (VDict []).

Definition circle_status_of (data : value) : value :=
  field_or (status_of data) "circle_status" VNone.

Definition view_entries (data : value) : list (string * value) :=
  entries_of (field_or (status_of data) "view_status" (VDict [])).

(** Names of the views whose state is ["unknown"], in iteration order. *)
Definition unknown_view_names (data : value) : list string :=
  map fst (filter (fun kv => py_eq_str (snd kv) "unknown") (view_entries data)).

Definition keychain_items_of (data : value) : list value :=
  match field_or data "keychain_items" (VList []) with
  | VList l => l
  | _ => []
  end.

(** A timestamp field of a keychain item; the empty string when absent. *)
Definition date_of (item : value) (key : string) : string :=
  match field item key with
  | Some (VStr s) => s
  | _ => ""
  end.

Definition is_epoch_item (item : value) : bool :=
  str_contains "1970-01-01" (date_of item "creation_date")
  || str_contains "1970-01-01" (date_of item "modification_date").

Definition epoch_matches (data : value) : list value :=
  filter is_epoch_item (keychain_items_of data).

Definition epoch_item_of (item : value) : EpochItem :=
  mkEpochItem (field_or item "service" VNone) (field_or item "account" VNone)
    (VStr (date_of item "creation_date")) (VStr (date_of item "modification_date")).

Definition metadata_of (data : value) : value :=
  field_or data "backup_metadata" (VDict []).

Definition integrity_of (data : value) : value :=
  field_or data "integrity_checks" (VDict []).

Definition sync_active_of (data : value) : value :=
  field_or (metadata_of data) "SyncZoneFetched" (VBool false).

Definition last_backup_of (data : value) : value :=
  field_or (metadata_of data) "NilBackupDateFetchDate" VNone.

(** The test of the backup-activity rule. *)
Definition backup_fires (data : value) : bool :=
  truthy (sync_active_of data) && truthy (last_backup_of data).

(** [SyncZoneFetched] is the boolean [true]. *)
Definition sync_is_true (data : value) : bool :=
  match field (metadata_of data) "SyncZoneFetched" with
  | Some (VBool true) => true
  | _ => false
  end.

(** [NilBackupDateFetchDate] holds a timestamp: a non-empty string. *)
Definition timestamp_present (data : value) : bool :=
  match field (metadata_of data) "NilBackupDateFetchDate" with
  | Some (VStr s) => negb (String.eqb s "")
  | _ => false
  end.

(** ** Shapes of a snapshot *)

Definition is_dict (v : value) : bool :=
  match v with VDict _ => true | _ => false end.

Definition is_str (v : value) : bool :=
  match v with VStr _ => true | _ => false end.

Definition is_bool (v : value) : bool :=
  match v with VBool _ => true | _ => false end.

Definition is_str_or_none (v : value) : bool :=
  match v with VStr _ | VNone => true | _ => false end.

(** [p] holds of the value under [key] when the key is there. *)
Definition absent_or (p : value -> bool) (obj : value) (key : string) : bool :=
  match field obj key with
  | Some v => p v
  | None => true
  end.

(** [status_keychain] is a mapping and so is its [view_status]. *)
Definition shape_status (data : value) : bool :=
  is_dict data
  && absent_or (fun s => is_dict s && absent_or is_dict s "view_status")
       data "status_keychain".

(** A keychain item is a mapping whose two timestamps are strings. *)
Definition shape_item (item : value) : bool :=
  is_dict item
  && absent_or is_str item "creation_date"
  && absent_or is_str item "modification_date".

(** [keychain_items] is a sequence of keychain items. *)
Definition shape_items (data : value) : bool :=
  is_dict data
  && absent_or (fun l => match l with
                         | VList its => forallb shape_item its
                         | _ => false
                         end) data "keychain_items".

(** [backup_metadata] and [integrity_checks] are mappings. *)
Definition shape_backup (data : value) : bool :=
  is_dict data
  && absent_or is_dict data "backup_metadata"
  && absent_or is_dict data "integrity_checks".

(** A snapshot of the data model: every section and field may be missing;
    the ones that are there have the documented shape. *)
Definition well_shaped (data : value) : bool :=
  shape_status data && shape_items data && shape_backup data.

(** The two fields the backup-activity rule tests have their documented
    types: a boolean flag, and a timestamp string or nothing. *)
Definition backup_typed (data : value) : bool :=
  absent_or is_bool (metadata_of data) "SyncZoneFetched"
  && absent_or is_str_or_none (metadata_of data) "NilBackupDateFetchDate".

(** ** What each method computes on a snapshot *)

Definition circle_issue : Issue :=
  circle_status_error
    "circle_status is 'Error' - indicates keychain sync failure"
    "high"
    "CloudCompromise.md Finding 1, line 115".

Definition pcs_issue (views : list string) : Issue :=
  unknown_pcs_views
    (str_of_len views ++ " PCS views showing 'unknown' status")
    views
    (if 5 <? Z.of_nat (length views) then "high" else "medium")
    "CloudCompromise.md Finding 1, lines 117-127".

Definition epoch_issue (matched : list EpochItem) : Issue :=
  epoch_timestamps
    ("Found " ++ str_of_len matched ++ " keychain items with epoch timestamps")
    matched
    "high"
    "CloudCompromise.md Finding 2, line 145".

Definition backup_issue (last_backup validation_performed : value) : Issue :=
  active_backup_without_validation
    "iCloud backup is active but no validation performed"
    last_backup
    validation_performed
    "high"
    "CloudCompromise.md Finding 3, lines 159-167".

(** The group severity the methods leave behind. *)
Definition group_severity (l : list Issue) : string :=
  match l with
  | [] => "none"
  | _ :: _ => "high"
  end.

Definition circle_is_error (data : value) : bool :=
  py_eq_str (circle_status_of data) "Error".

Definition keychain_issues (data : value) : list Issue :=
  (if circle_is_error data then [circle_issue] else [])
  ++ match unknown_view_names data with
     | [] => []
     | _ :: _ => [pcs_issue (unknown_view_names data)]
     end.

Definition keychain_weight (data : value) : Z :=
  (if circle_is_error data then 3 else 0)
  + Z.of_nat (length (unknown_view_names data)).

Definition timestamp_issues (data : value) : list Issue :=
  match epoch_matches data with
  | [] => []
  | _ :: _ => [epoch_issue (map epoch_item_of (epoch_matches data))]
  end.

Definition timestamp_weight (data : value) : Z :=
  Z.of_nat (length (epoch_matches data)) * 2.

Definition backup_issues (data : value) : list Issue :=
  if backup_fires data then
    [backup_issue (last_backup_of data)
       (field_or (integrity_of data) "keychain_validated" (VBool false))]
  else [].

Definition backup_weight (data : value) : Z :=
  if backup_fires data then 2 else 0.

(** [self] after [n] more points. *)
Definition scored (self : EvidenceAnalyzer) (n : Z) : EvidenceAnalyzer :=
  mkAnalyzer (self_findings self) (self_corruption_score self + n).

(** The signatures a snapshot shows, and when one snapshot shows at least
    the signatures of another. *)
Record Signatures : Type := mkSignatures {
  sig_circle : bool;
  sig_unknown : nat;
  sig_epoch : nat;
  sig_backup : bool
}.

Definition signatures (data : value) : Signatures :=
  mkSignatures (circle_is_error data) (length (unknown_view_names data))
    (length (epoch_matches data)) (backup_fires data).

Definition sig_le (a b : Signatures) : Prop :=
  (sig_circle a = true -> sig_circle b = true)
  /\ (sig_unknown a <= sig_unknown b)%nat
  /\ (sig_epoch a <= sig_epoch b)%nat
  /\ (sig_backup a = true -> sig_backup b = true).

(** A report with its timestamp blanked. *)
Definition without_timestamp (o : outcome Report) : outcome Report :=
  match o with
  | Returns r => Returns (mkReport "" (summary r) (findings r) (recommendations r))
  | Raises e => Raises e
  end.

(** ** The wording of the specification *)

(** The assessment labels as the specification spells them. *)
Definition spec_assessment (score : Z) : string :=
  if 10 <=? score then "SEVERE — Multiple corruption indicators present"
  else if 5 <=? score then "MODERATE — Significant corruption detected"
  else if 0 <? score then "MILD — Some issues detected"
  else "CLEAN — No corruption indicators found".

(** The recommendations as the specification spells them. *)
Definition spec_recommendations (score : Z) : list string :=
  (if 10 <=? score
   then ["URGENT: severe corruption detected — avoid using this backup"]
   else [])
  ++ (if 0 <? score
      then ["do not restore this backup to new devices";
            "collect a full diagnostic capture for documentation";
            "escalate with support referencing this analysis";
            "create a new backup only after remediation"]
      else []).

(** ** Invariants of a method run *)

(** A group is coherent when its severity is the one its issues call for,
    and a method run is sound when it returns a coherent group under the
    method's name, leaves [self.findings] alone and takes no points away. *)
Definition coherent (g : Group) : Prop :=
  severity g = group_severity (issues g).

Definition sound_run (title : string) (self : EvidenceAnalyzer)
    (res : outcome Group * EvidenceAnalyzer) : Prop :=
  self_findings (snd res) = self_findings self
  /\ self_corruption_score self <= self_corruption_score (snd res)
  /\ match fst res with
     | Returns g => coherent g /\ name g = title
     | Raises _ => True
     end.

(** A computation that never writes [self]. *)
Definition preserves {A : Type} (m : M A) : Prop :=
  forall self, snd (m self) = self.

(** ** Sample snapshots *)

Definition views_unknown (names : list string) : list (string * value) :=
  map (fun n => (n, VStr "unknown")) names.

(** Sync failure, eleven unknown views and one item dated at the epoch. *)
Definition snapshot_severe : value :=
  VDict
    [("status_keychain",
      VDict [("circle_status", VStr "Error");
             ("view_status",
              VDict (views_unknown
                       ["Manatee"; "Engram"; "AutoUnlock"; "Health"; "ApplePay";
                        "Home"; "LimitedPeersAllowed"; "SecureObjectSync";
                        "WiFi"; "ProtectedCloudStorage"; "CreditCards"]))]);
     ("keychain_items",
      VList [VDict [("service", VStr "AutoUnlock");
                    ("account", VStr "device");
                    ("creation_date", VStr "1970-01-01T00:11:19Z");
                    ("modification_date", VStr "2024-11-14T12:06:28Z")]])].

(** A healthy capture. *)
Definition snapshot_clean : value :=
  VDict
    [("status_keychain",
      VDict [("circle_status", VStr "In Circle");
             ("view_status",
              VDict [("Manatee", VStr "enabled"); ("Health", VStr "enabled")])]);
     ("keychain_items",
      VList [VDict [("service", VStr "WiFi");
                    ("account", VStr "home");
                    ("creation_date", VStr "2024-01-15T10:30:00Z");
                    ("modification_date", VStr "2024-01-15T10:30:00Z")]]);
     ("backup_metadata", VDict [("SyncZoneFetched", VBool false)])].

(** Six unknown views and nothing else. *)
Definition snapshot_six_unknown : value :=
  VDict
    [("status_keychain",
      VDict [("circle_status", VStr "In Circle");
             ("view_status",
              VDict (views_unknown ["a"; "b"; "c"; "d"; "e"; "f"]))])].

(** Three unknown views between two enabled ones. *)
Definition snapshot_three_unknown : value :=
  VDict
    [("status_keychain",
      VDict [("view_status",
              VDict [("Home", VStr "unknown"); ("WiFi", VStr "enabled");
                     ("Health", VStr "unknown"); ("Manatee", VStr "enabled");
                     ("Engram", VStr "unknown")])])].

(** Backups running, never validated. *)
Definition snapshot_backup : value :=
  VDict
    [("backup_metadata",
      VDict [("SyncZoneFetched", VBool true);
             ("NilBackupDateFetchDate", VStr "2025-11-27T12:59:09Z")])].

(** Only the sync failure. *)
Definition snapshot_circle_error : value :=
  VDict [("status_keychain", VDict [("circle_status", VStr "Error")])].

(** ** Code around the analyzer: results, exceptions, dictionaries *)

(** A computation that needs no object: [py_get], [py_items], [py_iter]
    and [py_contains] never read or write [self], so a function that is not
    a method of the analyzer runs them detached from any analyzer. *)
Definition detached {A : Type} (m : M A) : outcome A := fst (m __init__).

Definition obind {A B : Type} (o : outcome A) (k : A -> outcome B) : outcome B :=
  match o with
  | Returns a => k a
  | Raises e => Raises e
  end.

Declare Scope out_scope.
Delimit Scope out_scope with out.
Notation "x <- m ;; k" := (obind m (fun x => k))
  (at level 100, m at next level, right associativity) : out_scope.

(** The exceptions of the code outside the analyzer class: the two of the
    analyzer, [ValueError] with its message, and whatever [open] and
    [json.load] raise, known by its text. *)
Inductive exception : Type :=
| Builtin (e : exn)
| ValueError (message : string)
| ReadError (message : string)
| SaveError (message : string).

Inductive result (A : Type) : Type :=
| Ok (a : A)
| Err (e : exception).
Arguments Ok {A} a.
Arguments Err {A} e.

Definition of_outcome {A : Type} (o : outcome A) : result A :=
  match o with
  | Returns a => Ok a
  | Raises e => Err (Builtin e)
  end.

(** A dictionary keyed by strings, for values of any type. *)
Fixpoint lookup {V : Type} (d : list (string * V)) (key : string) : option V :=
  match d with
  | [] => None
  | (k, v) :: rest => if String.eqb k key then Some v else lookup rest key
  end.

(** [d[key] = v]: a key that is there keeps its place, a new one goes last. *)
Fixpoint dict_set {V : Type} (d : list (string * V)) (key : string) (v : V)
  : list (string * V) :=
  match d with
  | [] => [(key, v)]
  | (k, x) :: rest =>
      if String.eqb k key then (k, v) :: rest
      else (k, x) :: dict_set rest key v
  end.

(** ** tests/poc/conftest.py *)

Module conftest.

Definition is_epoch_timestamp (timestamp_str : value) : outcome bool :=
  detached (py_contains "1970-01-01" timestamp_str).

(** The last loop of [has_corruption_indicators]: it returns at the first
    item whose creation date is at the epoch. *)
Fixpoint any_epoch_creation (todo : list value) : outcome bool :=
  match todo with
  | [] => Returns false
  | item :: rest =>
      (created <- detached (py_get item "creation_date" (VStr "")) ;;
       hit <- is_epoch_timestamp created ;;
       if hit then Returns true else any_epoch_creation rest)%out
  end.

Definition has_corruption_indicators (keychain_data : value) : outcome bool :=
  (status <- detached (py_get keychain_data "status_keychain" (VDict [])) ;;
   circle_status <- detached (py_get status "circle_status" VNone) ;;
   if py_eq_str circle_status "Error" then Returns true
   else
     view_status <- detached (py_get status "view_status" (VDict [])) ;;
     (* [values()] is the second components of [items()] *)
     entries <- detached (py_items view_status) ;;
     if existsb (fun state => py_eq_str state "unknown") (map snd entries)
     then Returns true
     else
       keychain_items <- detached (py_get keychain_data "keychain_items" (VList [])) ;;
       todo <- detached (py_iter keychain_items) ;;
       any_epoch_creation todo)%out.

(** One entry of [self.backups]. *)
Record Backup : Type := mkBackup {
  keychain : value;
  metadata : value;
  created_at : string;
  validated : bool
}.

Record MockiCloudBackupSystem : Type := mkSystem {
  backups : list (string * Backup);
  validation_performed : bool;
  warnings_shown : bool
}.

Definition __init__ : MockiCloudBackupSystem := mkSystem [] false false.

(** A method of the backup system. *)
Definition Sys (A : Type) : Type :=
  MockiCloudBackupSystem -> result A * MockiCloudBackupSystem.

(** [create_backup]; [now] is what [datetime.utcnow().isoformat()] reads.
    The backup holds the very objects it is given. *)
Definition create_backup (now : string) (device_id : string)
    (keychain_data metadata : value) : Sys bool :=
  fun self =>
    (Ok true,
     mkSystem
       (dict_set (backups self) device_id
          (mkBackup keychain_data metadata now false))
       (validation_performed self) (warnings_shown self)).

Definition restore_backup (device_id : string) : Sys value :=
  fun self =>
    match lookup (backups self) device_id with
    | None => (Err (ValueError ("No backup found for device " ++ device_id)), self)
    | Some backup => (Ok (keychain backup), self)
    end.

(** The dictionary [validate_keychain] returns. *)
Record Validation : Type := mkValidation {
  valid : bool;
  issues : list string;
  result_validation_performed : bool
}.

Section Formatting.

(** [str(v)], the text an f-string puts for a value. *)
Variable py_str : value -> string.

(** The loop of [validate_keychain] over the keychain items. *)
Fixpoint epoch_creation_issues (todo : list value) (issues : list string)
  : outcome (list string) :=
  match todo with
  | [] => Returns issues
  | item :: rest =>
      (created <- detached (py_get item "creation_date" (VStr "")) ;;
       hit <- detached (py_contains "1970-01-01" created) ;;
       issues <-
         (if hit then
            service <- detached (py_get item "service" VNone) ;;
            Returns (issues ++ [("Epoch timestamp in " ++ py_str service)%string])
          else Returns issues) ;;
       epoch_creation_issues rest issues)%out
  end.

Definition validate_keychain (keychain_data : value) : Sys Validation :=
  fun self =>
    let self := mkSystem (backups self) true (warnings_shown self) in
    (of_outcome
       (let issues := [] in
        status <- detached (py_get keychain_data "status_keychain" (VDict [])) ;;
        circle_status <- detached (py_get status "circle_status" VNone) ;;
        let issues :=
          if py_eq_str circle_status "Error"
          then issues ++ ["circle_status is Error"]
          else issues in
        view_status <- detached (py_get status "view_status" (VDict [])) ;;
        entries <- detached (py_items view_status) ;;
        let issues :=
          fold_left
            (fun issues kv =>
               if py_eq_str (snd kv) "unknown"
               then issues ++ [("PCS view " ++ fst kv ++ " is unknown")%string]
               else issues)
            entries issues in
        keychain_items <- detached (py_get keychain_data "keychain_items" (VList [])) ;;
        todo <- detached (py_iter keychain_items) ;;
        issues <- epoch_creation_issues todo issues ;;
        Returns (mkValidation (Nat.eqb (length issues) 0) issues true))%out,
     self).

End Formatting.

Definition show_user_warning (issues : list string) : Sys unit :=
  fun self =>
    (Ok tt, mkSystem (backups self) (validation_performed self) true).

(** One use of the backup system by a device: a backup or a restore. *)
Inductive Call : Type :=
| CallCreate (now device_id : string) (keychain_data metadata : value)
| CallRestore (device_id : string).

Definition call (c : Call) (self : MockiCloudBackupSystem)
  : MockiCloudBackupSystem :=
  match c with
  | CallCreate now device_id keychain_data metadata =>
      snd (create_backup now device_id keychain_data metadata self)
  | CallRestore device_id => snd (restore_backup device_id self)
  end.

(** The system after a sequence of calls; a restore that raises is caught
    and the sequence goes on. *)
Definition calls (cs : list Call) (self : MockiCloudBackupSystem)
  : MockiCloudBackupSystem :=
  fold_left (fun self c => call c self) cs self.

(** A device that restores its backup and backs the restored keychain up
    again, [n] times; [nows] gives the time of each backup. A restore that
    raises ends the cycles. *)
Fixpoint restore_cycles (n : nat) (nows : nat -> string) (device_id : string)
    (metadata : value) (self : MockiCloudBackupSystem)
  : MockiCloudBackupSystem :=
  match n with
  | O => self
  | S n' =>
      match restore_backup device_id self with
      | (Ok restored, self) =>
          restore_cycles n' nows device_id metadata
            (snd (create_backup (nows n') device_id restored metadata self))
      | (Err _, self) => self
      end
  end.

End conftest.

(** ** The command line of tools/analyze_evidence.py *)

(** What [parser.parse_args()] returns. *)
Record Args : Type := mkArgs {
  path : option string;
  mock : bool;
  verbose : bool;
  output : option string
}.

(** [open] and [json.load] on a file. *)
Inductive FileData : Type :=
| Contents (data : value)
| Unreadable (message : string).

(** What [main] finds around it: the two fixture paths as text, whether a
    path exists, what loading a file gives, whether a file opens for
    writing (and the error text if not), and the clock. *)
Record World : Type := mkWorld {
  data_path : string;
  metadata_path : string;
  path_exists : string -> bool;
  load_json : string -> FileData;
  open_for_write : string -> option string;
  utcnow : string
}.

(** What [main] does to the outside, in order: a line printed, the usage
    text printed, the report handed to [print_report], the report dumped
    to a file. *)
Inductive Event : Type :=
| Printed (text : string)
| PrintedHelp
| PrintedReport (report : Report) (verbose : bool)
| SavedJson (path : string) (report : Report).

(** Truth value of an optional string argument. *)
Definition given (arg : option string) : option string :=
  match arg with
  | Some s => if String.eqb s "" then None else Some s
  | None => None
  end.

(** [data.update(metadata)]. A mapping is merged key by key; the empty
    string and the empty list change nothing; a non-empty string fails on
    its first character; [None] and numbers are not iterable. A non-empty
    list is taken as a sequence of pairs, whose keys need not be strings:
    that case is outside this model ([None]). *)
Definition py_update (data metadata : value) : option (result value) :=
  match data with
  | VDict d =>
      match metadata with
      | VDict m =>
          Some (Ok (VDict (fold_left (fun d kv => dict_set d (fst kv) (snd kv)) m d)))
      | VStr s =>
          if String.eqb s "" then Some (Ok data)
          else Some (Err (ValueError
                 "dictionary update sequence element #0 has length 1; 2 is required"))
      | VList [] => Some (Ok data)
      | VList (_ :: _) => None
      | VNone | VBool _ | VInt _ | VFloat _ => Some (Err (Builtin TypeError))
      end
  | _ => Some (Err (Builtin AttributeError))
  end.

(** The part of [main] after the data is loaded: analysis on a new
    analyzer, the report printed, the report saved when [--output] is
    given, and the exit code. [out] is what was printed before. *)
Definition analyse_and_report (args : Args) (w : World) (data : value)
    (out : list Event) : result Z * list Event :=
  match analyze_all (utcnow w) data __init__ with
  | (Raises e, _) => (Err (Builtin e), out)
  | (Returns report, _) =>
      let out := out ++ [PrintedReport report (verbose args)] in
      let code := if 0 <? corruption_score (summary report) then 1 else 0 in
      match given (output args) with
      | Some o =>
          match open_for_write w o with
          | Some message => (Err (SaveError message), out)
          | None =>
              (Ok code, out ++ [SavedJson o report; Printed ("Report saved to " ++ o)])
          end
      | None => (Ok code, out)
      end
  end.

(** [main], from the parsed arguments on: the exit code or the exception
    that escapes, and what was printed and written. [None] when the model
    does not cover the run (see [py_update]). *)
Definition main (args : Args) (w : World) : option (result Z * list Event) :=
  if mock args then
    if negb (path_exists w (data_path w)) then
      Some (Ok 1, [Printed ("Error: Mock data not found at " ++ data_path w)])
    else
      match load_json w (data_path w) with
      | Unreadable message => Some (Err (ReadError message), [])
      | Contents data =>
          match load_json w (metadata_path w) with
          | Unreadable message => Some (Err (ReadError message), [])
          | Contents metadata =>
              match py_update data metadata with
              | None => None
              | Some (Err e) => Some (Err e, [])
              | Some (Ok data) =>
                  Some (analyse_and_report args w data
                          [Printed "Using mock corrupted data for demonstration..."])
              end
          end
      end
  else
    match given (path args) with
    | Some p =>
        match load_json w p with
        | Unreadable message =>
            Some (Ok 1, [Printed ("Error loading data from " ++ p ++ ": " ++ message)])
        | Contents data => Some (analyse_and_report args w data [])
        end
    | None => Some (Ok 1, [PrintedHelp])
    end.

(** ** More invariants of a method run *)

(** A computation whose result does not depend on [self] and that leaves
    [self] as it is. *)
Definition stateless {A : Type} (m : M A) : Prop :=
  exists o, forall self, m self = (o, self).

(** A method run is counted when the returned group has at most [limit]
    issues, every issue brought at least one point, and no issue means no
    point. *)
Definition counted_run (limit : nat) (self : EvidenceAnalyzer)
    (res : outcome Group * EvidenceAnalyzer) : Prop :=
  match fst res with
  | Returns g =>
      (length (issues g) <= limit)%nat
      /\ Z.of_nat (length (issues g))
         <= self_corruption_score (snd res) - self_corruption_score self
      /\ (issues g = [] ->
          self_corruption_score (snd res) = self_corruption_score self)
  | Raises _ => True
  end.

(** The keychain items whose creation date is at the epoch. *)
Definition creation_epoch_items (data : value) : list value :=
  filter (fun item => str_contains "1970-01-01" (date_of item "creation_date"))
    (keychain_items_of data).

(** A call that is not a backup of [device_id]. *)
Definition spares (device_id : string) (c : conftest.Call) : Prop :=
  match c with
  | conftest.CallCreate _ d _ _ => d <> device_id
  | conftest.CallRestore _ => True
  end.

(** A snapshot with four recognised sections and one that no rule reads. *)
Definition snapshot_with_notes : value :=
  VDict
    [("device", VStr "iPhone");
     ("status_keychain",
      VDict [("circle_status", VStr "Error");
             ("view_status", VDict [("Home", VStr "unknown")])]);
     ("keychain_items",
      VList [VDict [("service", VStr "AutoUnlock");
                    ("creation_date", VStr "1970-01-01T00:11:19Z")];
             VDict [("service", VStr "WiFi");
                    ("creation_date", VStr "2024-01-15T10:30:00Z");
                    ("modification_date", VStr "1970-01-01 00:00:00 +0000")]]);
     ("corruption_indicators", VDict [("has_error_status", VBool true)])].

(** ** Substrings *)

Lemma prefix_iff_append (p s : string) :
  String.prefix p s = true <-> exists post, s = (p ++ post)%string.
Proof.
  revert s; induction p as [|c p IH]; intros s.
  - split; [intros _; exists s; reflexivity | intros _; destruct s; reflexivity].
  - destruct s as [|c' s]; simpl.
    + split; [discriminate | intros [post H]; discriminate].
    + destruct (ascii_dec c c') as [->|Hne].
      * rewrite IH. split; intros [post H]; exists post.
        -- simpl; now rewrite H.
        -- simpl in H; now inversion H.
      * split; [discriminate | intros [post H]; simpl in H; inversion H; congruence].
Qed.

Lemma str_contains_nil (needle : string) :
  str_contains needle "" = String.prefix needle "".
Proof. reflexivity. Qed.

Lemma str_contains_cons (needle : string) (c : ascii) (s : string) :
  str_contains needle (String c s) =
  String.prefix needle (String c s) || str_contains needle s.
Proof. reflexivity. Qed.

Lemma str_contains_iff (needle s : string) :
  str_contains needle s = true <->
  exists pre post, s = (pre ++ needle ++ post)%string.
Proof.
  induction s as [|c s IH].
  - rewrite str_contains_nil, prefix_iff_append. split.
    + intros [post H]. exists ""%string, post. exact H.
    + intros [pre [post H]]. destruct pre; [|discriminate].
      exists post. exact H.
  - rewrite str_contains_cons, orb_true_iff, IH, prefix_iff_append. split.
    + intros [[post H] | [pre [post H]]].
      * exists ""%string, post. exact H.
      * exists (String c pre), post. simpl. now rewrite H.
    + intros [pre [post H]]. destruct pre as [|c' pre].
      * left. exists post. exact H.
      * right. exists pre, post. simpl in H. now inversion H.
Qed.

(** ** Running the methods on a shaped snapshot *)

(** Evaluation that leaves the arithmetic of the score alone. *)
Ltac norm :=
  cbn -[Z.add Z.mul Z.of_nat Z.ltb Z.leb str_of_len String.append].

Ltac run_py :=
  unfold bind, ret, raise, add_score, append_finding, reset, get_self,
    py_get, py_items, py_iter, py_contains; norm.

(** Closes a goal [(Returns g, self1) = (Returns g, self2)] where the two
    analyzers differ in how the score is summed. *)
Ltac same_run :=
  first [ reflexivity
        | apply f_equal2;
          [reflexivity
          | apply f_equal2; [reflexivity | rewrite ?length_map; lia]] ].

Lemma keychain_status_run (data : value) (self : EvidenceAnalyzer) :
  shape_status data = true ->
  analyze_keychain_status data self =
    (Returns (mkGroup "Keychain Status Analysis" (keychain_issues data)
                (group_severity (keychain_issues data))),
     scored self (keychain_weight data)).
Proof.
  unfold shape_status, absent_or, keychain_issues, keychain_weight,
    circle_is_error, unknown_view_names, view_entries, circle_status_of,
    status_of, field_or, scored, analyze_keychain_status.
  destruct self as [fs sc].
  destruct data as [| | | | | |d]; norm; try discriminate.
  destruct (dict_get d "status_keychain") as [[| | | | | |s]|]; norm;
    try discriminate.
  - run_py.
    destruct (dict_get s "view_status") as [[| | | | | |vs]|]; norm;
      try discriminate; intros _;
      destruct (dict_get s "circle_status") as [c|]; norm;
      try destruct (py_eq_str c "Error"); norm;
      try destruct (map fst (filter _ vs)) eqn:E; norm;
      same_run.
  - intros _. run_py. same_run.
Qed.

Lemma collect_epoch_items_run (todo : list value) :
  forallb shape_item todo = true ->
  forall (acc : list EpochItem) (self : EvidenceAnalyzer),
    collect_epoch_items todo acc self =
      (Returns (acc ++ map epoch_item_of (filter is_epoch_item todo)), self).
Proof.
  induction todo as [|item rest IH]; intros Hs acc self.
  - norm. unfold ret. now rewrite app_nil_r.
  - simpl in Hs. apply andb_true_iff in Hs. destruct Hs as [Hi Hr].
    specialize (IH Hr).
    unfold shape_item in Hi.
    destruct item as [| | | | | |d]; try discriminate.
    assert (Hstep : forall c m,
      dict_get d "creation_date" = c -> dict_get d "modification_date" = m ->
      absent_or is_str (VDict d) "creation_date" = true ->
      absent_or is_str (VDict d) "modification_date" = true ->
      collect_epoch_items (VDict d :: rest) acc self =
      collect_epoch_items rest
        (acc ++ if is_epoch_item (VDict d) then [epoch_item_of (VDict d)] else [])
        self).
    { intros c m Ec Em Hc Hm.
      unfold absent_or, is_epoch_item, epoch_item_of, date_of, field_or, field
        in *.
      cbn [collect_epoch_items]. run_py. rewrite Ec, Em in *.
      destruct c as [[| | | |c| |]|]; try discriminate;
        destruct m as [[| | | |m| |]|]; try discriminate; norm;
        try destruct (str_contains "1970-01-01" c); norm;
        try destruct (str_contains "1970-01-01" m); norm;
        rewrite ?app_nil_r; reflexivity. }
    apply andb_true_iff in Hi. destruct Hi as [Hi Hm].
    apply andb_true_iff in Hi. destruct Hi as [_ Hc].
    rewrite (Hstep _ _ eq_refl eq_refl Hc Hm), IH.
    cbn [filter]. destruct (is_epoch_item (VDict d)).
    + cbn [map]. now rewrite <- app_assoc.
    + now rewrite app_nil_r.
Qed.

Lemma timestamps_run (data : value) (self : EvidenceAnalyzer) :
  shape_items data = true ->
  analyze_timestamps data self =
    (Returns (mkGroup "Timestamp Validation" (timestamp_issues data)
                (group_severity (timestamp_issues data))),
     scored self (timestamp_weight data)).
Proof.
  unfold shape_items, absent_or, timestamp_issues, timestamp_weight,
    epoch_matches, keychain_items_of, field_or, scored, analyze_timestamps.
  destruct self as [fs sc].
  destruct data as [| | | | | |d]; norm; try discriminate.
  destruct (dict_get d "keychain_items") as [[| | | | |its|]|]; norm;
    try discriminate.
  - intros Hs. unfold bind at 1. unfold py_get, ret at 1.
    unfold bind at 1. unfold py_iter, ret at 1.
    unfold bind at 1. rewrite (collect_epoch_items_run its Hs). norm.
    destruct (filter is_epoch_item its) as [|x xs]; run_py;
      same_run.
  - intros _. run_py. same_run.
Qed.

Lemma backup_metadata_run (data : value) (self : EvidenceAnalyzer) :
  shape_backup data = true ->
  analyze_backup_metadata data self =
    (Returns (mkGroup "Backup Activity Analysis" (backup_issues data)
                (group_severity (backup_issues data))),
     scored self (backup_weight data)).
Proof.
  unfold shape_backup, absent_or, backup_issues, backup_weight, backup_fires,
    sync_active_of, last_backup_of, metadata_of, integrity_of, field_or,
    scored, analyze_backup_metadata.
  destruct self as [fs sc].
  destruct data as [| | | | | |d]; norm; try discriminate.
  destruct (dict_get d "backup_metadata") as [[| | | | | |md]|]; norm;
    try discriminate;
    destruct (dict_get d "integrity_checks") as [[| | | | | |ic]|]; norm;
    try discriminate; intros _; run_py;
    try destruct (dict_get md "SyncZoneFetched") as [sa|]; norm;
    try destruct (dict_get md "NilBackupDateFetchDate") as [lb|]; norm;
    try destruct (truthy sa); norm;
    try destruct (truthy lb); norm;
    same_run.
Qed.

(** ** What the methods keep on every input *)

Ltac sound_run_tac :=
  unfold sound_run, coherent; norm;
  repeat split; try reflexivity; try lia.

Lemma keychain_status_sound (data : value) (self : EvidenceAnalyzer) :
  sound_run "Keychain Status Analysis" self (analyze_keychain_status data self).
Proof.
  unfold analyze_keychain_status. run_py.
  destruct data as [| | | | | |d]; try solve [sound_run_tac].
  destruct (dict_get d "status_keychain") as [[| | | | | |s]|];
    try solve [sound_run_tac]; norm.
  destruct (py_eq_str _ "Error"); norm;
    (destruct (dict_get s "view_status") as [[| | | | | |vs]|];
     try solve [sound_run_tac]; norm;
     destruct (map fst (filter _ _)); sound_run_tac).
Qed.

Lemma preserves_ret {A : Type} (a : A) : preserves (ret a).
Proof. intros self; reflexivity. Qed.

Lemma preserves_raise {A : Type} (e : exn) : preserves (@raise A e).
Proof. intros self; reflexivity. Qed.

Lemma preserves_bind {A B : Type} (m : M A) (k : A -> M B) :
  preserves m -> (forall a, preserves (k a)) -> preserves (bind m k).
Proof.
  intros Hm Hk self. unfold bind. specialize (Hm self).
  destruct (m self) as [[a|e] s1]; simpl in Hm; subst s1; [apply Hk | reflexivity].
Qed.

Lemma preserves_py_get (obj : value) (key : string) (default : value) :
  preserves (py_get obj key default).
Proof. destruct obj; intros self; reflexivity. Qed.

Lemma preserves_py_iter (obj : value) : preserves (py_iter obj).
Proof. destruct obj; intros self; reflexivity. Qed.

Lemma preserves_py_contains (needle : string) (obj : value) :
  preserves (py_contains needle obj).
Proof. destruct obj; intros self; reflexivity. Qed.

Create HintDb pure_py.
#[local] Hint Resolve preserves_ret preserves_raise preserves_py_get
  preserves_py_iter preserves_py_contains : pure_py.

Ltac preserves_tac :=
  repeat first
    [ progress auto with pure_py
    | apply preserves_bind; [|intros ?]
    | match goal with
      | |- preserves (if ?b then _ else _) => destruct b
      end ].

Lemma collect_epoch_items_self (todo : list value) :
  forall acc : list EpochItem, preserves (collect_epoch_items todo acc).
Proof.
  induction todo as [|item rest IH]; intros acc; cbn [collect_epoch_items];
    preserves_tac.
Qed.

Lemma timestamps_sound (data : value) (self : EvidenceAnalyzer) :
  sound_run "Timestamp Validation" self (analyze_timestamps data self).
Proof.
  unfold analyze_timestamps.
  unfold bind at 1.
  destruct (py_get data "keychain_items" (VList []) self) as [[kis|e] s1] eqn:E1.
  2:{ unfold py_get, ret, raise in E1. destruct data; inversion E1; sound_run_tac. }
  assert (s1 = self) as ->
    by (unfold py_get, ret, raise in E1; destruct data; inversion E1; reflexivity).
  unfold bind at 1.
  destruct (py_iter kis self) as [[todo|e] s2] eqn:E2.
  2:{ unfold py_iter, ret, raise in E2. destruct kis; inversion E2; sound_run_tac. }
  assert (s2 = self) as ->
    by (unfold py_iter, ret, raise in E2; destruct kis; inversion E2; reflexivity).
  unfold bind at 1.
  pose proof (collect_epoch_items_self todo [] self) as Hs.
  destruct (collect_epoch_items todo [] self) as [[eis|e] s3]; simpl in Hs; subst s3.
  2:{ sound_run_tac. }
  destruct eis; run_py; sound_run_tac.
Qed.

Lemma backup_metadata_sound (data : value) (self : EvidenceAnalyzer) :
  sound_run "Backup Activity Analysis" self (analyze_backup_metadata data self).
Proof.
  unfold analyze_backup_metadata. run_py.
  destruct data as [| | | | | |d]; try solve [sound_run_tac].
  destruct (match dict_get d "backup_metadata" with Some v => v | None => VDict [] end)
    as [| | | | | |md]; try solve [sound_run_tac]; norm.
  destruct (truthy _ && truthy _); norm; [|sound_run_tac].
  destruct (match dict_get d "integrity_checks" with
            | Some v => v
            | None => VDict []
            end);
    sound_run_tac.
Qed.

(** ** [analyze_all] *)

(** The prior state of the analyzer is overwritten before anything reads
    it. *)
Lemma analyze_all_resets
    (now : string) (data : value) (self1 self2 : EvidenceAnalyzer) :
  analyze_all now data self1 = analyze_all now data self2.
Proof. reflexivity. Qed.

(** What every returned report is made of. *)
Lemma analyze_all_inv
    (now : string) (data : value) (self self' : EvidenceAnalyzer)
    (r : Report) :
  analyze_all now data self = (Returns r, self') ->
  exists g1 g2 g3,
    findings r = [g1; g2; g3]
    /\ coherent g1 /\ coherent g2 /\ coherent g3
    /\ map name [g1; g2; g3] =
         ["Keychain Status Analysis"; "Timestamp Validation";
          "Backup Activity Analysis"]
    /\ self_findings self' = findings r
    /\ self_corruption_score self' = corruption_score (summary r)
    /\ 0 <= corruption_score (summary r)
    /\ total_findings (summary r) = 3
    /\ total_issues (summary r) =
         Z.of_nat (length (issues g1)) + Z.of_nat (length (issues g2))
         + Z.of_nat (length (issues g3))
    /\ high_severity_findings (summary r) =
         sum_Z (map (fun g => if String.eqb (severity g) "high" then 1 else 0)
                  [g1; g2; g3])
    /\ _assess_corruption_level self' = (Returns (assessment (summary r)), self')
    /\ _generate_recommendations self' = (Returns (recommendations r), self')
    /\ timestamp r = now.
Proof.
  unfold analyze_all. unfold bind at 1, reset at 1.
  unfold bind at 1.
  pose proof (keychain_status_sound data (mkAnalyzer [] 0)) as H1.
  destruct (analyze_keychain_status data (mkAnalyzer [] 0)) as [[g1|e] [f1 s1]];
    [|discriminate].
  destruct H1 as (Hf1 & Hs1 & Hc1 & Hn1). cbn in Hf1, Hs1, Hc1, Hn1. subst f1.
  unfold bind at 1, append_finding at 1. cbn [self_findings self_corruption_score app].
  unfold bind at 1.
  pose proof (timestamps_sound data (mkAnalyzer [g1] s1)) as H2.
  destruct (analyze_timestamps data (mkAnalyzer [g1] s1)) as [[g2|e] [f2 s2]];
    [|discriminate].
  destruct H2 as (Hf2 & Hs2 & Hc2 & Hn2). cbn in Hf2, Hs2, Hc2, Hn2. subst f2.
  unfold bind at 1, append_finding at 1. cbn [self_findings self_corruption_score app].
  unfold bind at 1.
  pose proof (backup_metadata_sound data (mkAnalyzer [g1; g2] s2)) as H3.
  destruct (analyze_backup_metadata data (mkAnalyzer [g1; g2] s2)) as [[g3|e] [f3 s3]];
    [|discriminate].
  destruct H3 as (Hf3 & Hs3 & Hc3 & Hn3). cbn in Hf3, Hs3, Hc3, Hn3. subst f3.
  unfold bind at 1, append_finding at 1. cbn [self_findings self_corruption_score app].
  unfold bind, get_self, ret, _assess_corruption_level, _generate_recommendations.
  cbn [self_findings self_corruption_score].
  intros H. inversion H; subst; clear H.
  exists g1, g2, g3. cbn [findings summary corruption_score total_findings
    total_issues high_severity_findings assessment recommendations timestamp
    self_findings self_corruption_score].
  repeat split; try assumption; try lia.
  - cbn [map]. now rewrite Hn1, Hn2, Hn3.
  - unfold sum_Z. cbn [map fold_right filter].
    destruct (String.eqb (severity g1) "high"),
      (String.eqb (severity g2) "high"), (String.eqb (severity g3) "high");
      reflexivity.
Qed.

(** On a shaped snapshot the three methods return and the report holds
    their groups and the sum of their points. *)
Lemma analyze_all_run (now : string) (data : value) (self : EvidenceAnalyzer) :
  well_shaped data = true ->
  exists r self',
    analyze_all now data self = (Returns r, self')
    /\ findings r =
         [mkGroup "Keychain Status Analysis" (keychain_issues data)
            (group_severity (keychain_issues data));
          mkGroup "Timestamp Validation" (timestamp_issues data)
            (group_severity (timestamp_issues data));
          mkGroup "Backup Activity Analysis" (backup_issues data)
            (group_severity (backup_issues data))]
    /\ corruption_score (summary r) =
         keychain_weight data + timestamp_weight data + backup_weight data.
Proof.
  unfold well_shaped. intros H.
  apply andb_true_iff in H. destruct H as [H H3].
  apply andb_true_iff in H. destruct H as [H1 H2].
  unfold analyze_all. unfold bind at 1, reset at 1.
  unfold bind at 1. rewrite (keychain_status_run _ _ H1).
  unfold bind at 1, append_finding at 1. unfold scored.
  cbn [self_findings self_corruption_score app].
  unfold bind at 1. rewrite (timestamps_run _ _ H2).
  unfold bind at 1, append_finding at 1. unfold scored.
  cbn [self_findings self_corruption_score app].
  unfold bind at 1. rewrite (backup_metadata_run _ _ H3).
  unfold bind at 1, append_finding at 1. unfold scored.
  cbn [self_findings self_corruption_score app].
  unfold bind, get_self, ret, _assess_corruption_level, _generate_recommendations.
  cbn [self_findings self_corruption_score].
  eexists. eexists. split; [reflexivity|].
  cbn [findings summary corruption_score]. split; [reflexivity | lia].
Qed.

(** ** The corruption score *)

(** C1. On every snapshot [analyze_all] returns a report whose corruption
    score is 3 if [circle_status] is ["Error"], plus one per view whose
    state is ["unknown"], plus 2 per keychain item with ["1970-01-01"] in
    one of its two timestamps, plus 2 if the backup-activity rule fires; the
    score is not negative, and a snapshot that shows at least the same
    signatures scores at least as much. *)
Theorem corruption_score_is_sum_of_weights
    (now : string) (data : value) (self : EvidenceAnalyzer) :
  well_shaped data = true ->
  exists r self',
    analyze_all now data self = (Returns r, self')
    /\ corruption_score (summary r) =
         (if circle_is_error data then 3 else 0)
         + Z.of_nat (length (unknown_view_names data))
         + 2 * Z.of_nat (length (epoch_matches data))
         + (if backup_fires data then 2 else 0)
    /\ 0 <= corruption_score (summary r)
    /\ forall now2 data2 self2 r2 self2',
         well_shaped data2 = true ->
         sig_le (signatures data) (signatures data2) ->
         analyze_all now2 data2 self2 = (Returns r2, self2') ->
         corruption_score (summary r) <= corruption_score (summary r2).
Proof.
  intros Hw.
  destruct (analyze_all_run now data self Hw) as (r & self' & Hrun & _ & Hsc).
  exists r, self'. split; [exact Hrun|].
  unfold keychain_weight, timestamp_weight, backup_weight in Hsc.
  split; [rewrite Hsc; lia|].
  split.
  - rewrite Hsc. destruct (circle_is_error data), (backup_fires data); lia.
  - intros now2 data2 self2 r2 self2' Hw2 Hle Hrun2.
    destruct (analyze_all_run now2 data2 self2 Hw2) as (r2' & s2' & Hrun2' & _ & Hsc2).
    rewrite Hrun2 in Hrun2'. inversion Hrun2'; subst r2' s2'.
    unfold keychain_weight, timestamp_weight, backup_weight in Hsc2.
    rewrite Hsc, Hsc2.
    destruct Hle as (Hc & Hu & He & Hb). cbn in Hc, Hu, He, Hb.
    destruct (circle_is_error data), (circle_is_error data2);
      try (specialize (Hc eq_refl); discriminate);
      destruct (backup_fires data), (backup_fires data2);
      try (specialize (Hb eq_refl); discriminate); lia.
Qed.

Lemma corruption_score_is_sum_of_weights_witness :
  well_shaped snapshot_severe = true
  /\ exists r self',
       analyze_all "2025-11-27T13:00:00" snapshot_severe __init__ = (Returns r, self')
       /\ corruption_score (summary r) = 16.
Proof.
  split; [reflexivity|].
  destruct (corruption_score_is_sum_of_weights "2025-11-27T13:00:00"
              snapshot_severe __init__ eq_refl) as (r & self' & Hrun & Hsc & _).
  exists r, self'. split; [exact Hrun|].
  rewrite Hsc. reflexivity.
Defined.

(** ** The PCS-view rule *)

(** C3. The PCS-view rule collects the views whose state is ["unknown"],
    in the order [view_status] lists them. When there is none it adds no
    issue; otherwise it adds one issue that lists them, of severity
    ["high"] above five views and ["medium"] up to five, and one point per
    view (on top of the 3 points of the circle-status rule, which shares
    the method). *)
Theorem pcs_view_rule (data : value) (self : EvidenceAnalyzer) :
  shape_status data = true ->
  let unknown := unknown_view_names data in
  (forall view, In view unknown <-> In (view, VStr "unknown") (view_entries data))
  /\ unknown =
       map fst (filter (fun kv => py_eq_str (snd kv) "unknown") (view_entries data))
  /\ exists g sev,
       analyze_keychain_status data self =
         (Returns g,
          scored self ((if circle_is_error data then 3 else 0)
                       + Z.of_nat (length unknown)))
       /\ issues g =
            (if circle_is_error data then [circle_issue] else [])
            ++ match unknown with
               | [] => []
               | _ :: _ =>
                   [unknown_pcs_views
                      (str_of_len unknown ++ " PCS views showing 'unknown' status")
                      unknown sev
                      "CloudCompromise.md Finding 1, lines 117-127"]
               end
       /\ ((5 < length unknown)%nat -> sev = "high")
       /\ ((length unknown <= 5)%nat -> sev = "medium").
Proof.
  intros Hs unknown. split; [|split; [reflexivity|]].
  - intros view. unfold unknown, unknown_view_names.
    rewrite in_map_iff. split.
    + intros [[v st] [Hv Hin]]. apply filter_In in Hin. destruct Hin as [Hin Heq].
      cbn in Hv, Heq. subst v. destruct st; try discriminate.
      apply String.eqb_eq in Heq. now subst.
    + intros Hin. exists (view, VStr "unknown"). split; [reflexivity|].
      apply filter_In. split; [exact Hin | reflexivity].
  - eexists. exists (if 5 <? Z.of_nat (length unknown) then "high" else "medium").
    split; [apply (keychain_status_run data self Hs)|].
    split; [reflexivity|].
    split; intros Hlen.
    + destruct (Z.ltb_spec 5 (Z.of_nat (length unknown))); [reflexivity | lia].
    + destruct (Z.ltb_spec 5 (Z.of_nat (length unknown))); [lia | reflexivity].
Qed.

Lemma pcs_view_rule_witness :
  shape_status snapshot_six_unknown = true
  /\ exists g,
       analyze_keychain_status snapshot_six_unknown __init__ =
         (Returns g, mkAnalyzer [] 6)
       /\ issues g =
            [unknown_pcs_views "6 PCS views showing 'unknown' status"
               ["a"; "b"; "c"; "d"; "e"; "f"] "high"
               "CloudCompromise.md Finding 1, lines 117-127"].
Proof.
  split; [reflexivity|].
  destruct (pcs_view_rule snapshot_six_unknown __init__ eq_refl)
    as (_ & _ & g & sev & Hrun & Hiss & Hhigh & _).
  exists g. split; [exact Hrun|].
  rewrite Hiss. cbn. rewrite Hhigh; [reflexivity | cbn; lia].
Defined.

(** ** The epoch-timestamp rule *)

(** C4. A keychain item matches exactly when ["1970-01-01"] is a substring
    of its creation or of its modification timestamp. With no match the
    rule adds no issue; otherwise it adds one issue of severity ["high"]
    that lists every matched item, and 2 points per matched item.
    ["1970-01-01T00:11:19Z"] and ["1970-01-01 00:00:00 +0000"] match,
    ["2024-01-15T10:30:00Z"] does not. *)
Theorem epoch_timestamp_rule (data : value) (self : EvidenceAnalyzer) :
  shape_items data = true ->
  let matched := filter is_epoch_item (keychain_items_of data) in
  (forall item,
      is_epoch_item item = true <->
      (exists pre post,
          date_of item "creation_date" = (pre ++ "1970-01-01" ++ post)%string)
      \/ (exists pre post,
          date_of item "modification_date" = (pre ++ "1970-01-01" ++ post)%string))
  /\ analyze_timestamps data self =
       (Returns
          (mkGroup "Timestamp Validation"
             match matched with
             | [] => []
             | _ :: _ =>
                 [epoch_timestamps
                    ("Found " ++ str_of_len matched
                       ++ " keychain items with epoch timestamps")
                    (map epoch_item_of matched)
                    "high"
                    "CloudCompromise.md Finding 2, line 145"]
             end
             match matched with [] => "none" | _ :: _ => "high" end),
        scored self (2 * Z.of_nat (length matched)))
  /\ is_epoch_item (VDict [("creation_date", VStr "1970-01-01T00:11:19Z")]) = true
  /\ is_epoch_item (VDict [("modification_date", VStr "1970-01-01 00:00:00 +0000")])
     = true
  /\ is_epoch_item (VDict [("creation_date", VStr "2024-01-15T10:30:00Z");
                           ("modification_date", VStr "2024-01-15T10:30:00Z")])
     = false.
Proof.
  intros Hs matched. split; [|split; [|repeat split]].
  - intros item. unfold is_epoch_item.
    rewrite orb_true_iff, !str_contains_iff. reflexivity.
  - rewrite (timestamps_run data self Hs).
    unfold timestamp_issues, timestamp_weight, epoch_matches, epoch_issue.
    fold matched. unfold str_of_len. rewrite length_map.
    replace (Z.of_nat (length matched) * 2) with (2 * Z.of_nat (length matched)) by lia.
    destruct matched; reflexivity.
Qed.

Lemma epoch_timestamp_rule_witness :
  shape_items snapshot_severe = true
  /\ exists g,
       analyze_timestamps snapshot_severe __init__ = (Returns g, mkAnalyzer [] 2)
       /\ issues g =
            [epoch_timestamps "Found 1 keychain items with epoch timestamps"
               [mkEpochItem (VStr "AutoUnlock") (VStr "device")
                  (VStr "1970-01-01T00:11:19Z") (VStr "2024-11-14T12:06:28Z")]
               "high" "CloudCompromise.md Finding 2, line 145"].
Proof.
  split; [reflexivity|].
  destruct (epoch_timestamp_rule snapshot_severe __init__ eq_refl)
    as (_ & Hrun & _).
  eexists. split; [exact Hrun | reflexivity].
Defined.

(** ** The backup-activity rule *)

(** C5. With [SyncZoneFetched] a boolean and [NilBackupDateFetchDate] a
    timestamp string (or nothing), the backup-activity rule adds one issue
    of severity ["high"] and 2 points when the flag is true and a timestamp
    is there, and nothing otherwise. The issue carries the timestamp and
    [integrity_checks.keychain_validated], [False] when that is missing.
    Neither the result nor the points depend on what the analyzer holds
    from the other rules. *)
Theorem backup_activity_rule (data : value) (self : EvidenceAnalyzer) :
  shape_backup data = true ->
  backup_typed data = true ->
  let fires := sync_is_true data && timestamp_present data in
  analyze_backup_metadata data self =
    (Returns
       (mkGroup "Backup Activity Analysis"
          (if fires then
             [active_backup_without_validation
                "iCloud backup is active but no validation performed"
                (last_backup_of data)
                match field (integrity_of data) "keychain_validated" with
                | Some v => v
                | None => VBool false
                end
                "high"
                "CloudCompromise.md Finding 3, lines 159-167"]
           else [])
          (if fires then "high" else "none")),
     scored self (if fires then 2 else 0)).
Proof.
  intros Hs Ht fires.
  rewrite (backup_metadata_run data self Hs).
  assert (Hf : backup_fires data = fires).
  { unfold fires, backup_fires, sync_is_true, timestamp_present,
      sync_active_of, last_backup_of, field_or.
    unfold backup_typed, absent_or in Ht.
    apply andb_true_iff in Ht. destruct Ht as [Ht1 Ht2].
    destruct (field (metadata_of data) "SyncZoneFetched") as [[| [|] | | | | |]|];
      try discriminate;
      destruct (field (metadata_of data) "NilBackupDateFetchDate")
        as [[| | | | | |]|]; try discriminate; reflexivity. }
  unfold backup_issues, backup_weight, backup_issue. rewrite Hf.
  destruct fires; reflexivity.
Qed.

Lemma backup_activity_rule_witness :
  shape_backup snapshot_backup = true
  /\ backup_typed snapshot_backup = true
  /\ analyze_backup_metadata snapshot_backup (mkAnalyzer [] 14) =
       (Returns
          (mkGroup "Backup Activity Analysis"
             [active_backup_without_validation
                "iCloud backup is active but no validation performed"
                (VStr "2025-11-27T12:59:09Z") (VBool false) "high"
                "CloudCompromise.md Finding 3, lines 159-167"]
             "high"),
        mkAnalyzer [] 16).
Proof.
  split; [reflexivity|]. split; [reflexivity|].
  exact (backup_activity_rule snapshot_backup (mkAnalyzer [] 14) eq_refl eq_refl).
Defined.

(** ** The assessment label *)

(** The label of a clean report is spelled with a hyphen, not with the
    dash of the specification. *)
Lemma assessment_label_spelling :
  exists r self',
    analyze_all "2025-11-27T13:00:00" snapshot_clean __init__ = (Returns r, self')
    /\ corruption_score (summary r) = 0
    /\ assessment (summary r) = "CLEAN - No corruption indicators found"
    /\ assessment (summary r) <> spec_assessment (corruption_score (summary r)).
Proof.
  eexists. eexists. split; [vm_compute; reflexivity|].
  split; [reflexivity|]. split; [reflexivity|]. discriminate.
Qed.

(** C2. [analyze_all] returns a report on every snapshot, and the label of
    a report is fixed by its score alone: 10 and more is SEVERE, 5 to 9 is
    MODERATE, 1 to 4 is MILD and 0 is CLEAN, with the labels as the source
    spells them; the score is never negative, so the four cases are all
    there is. *)
Theorem assessment_by_score
    (now : string) (data : value) (self : EvidenceAnalyzer) :
  (well_shaped data = true ->
   exists r self', analyze_all now data self = (Returns r, self'))
  /\ forall r self',
       analyze_all now data self = (Returns r, self') ->
       let score := corruption_score (summary r) in
       0 <= score
       /\ (10 <= score ->
           assessment (summary r) = "SEVERE - Multiple corruption indicators present")
       /\ (5 <= score < 10 ->
           assessment (summary r) = "MODERATE - Significant corruption detected")
       /\ (0 < score < 5 ->
           assessment (summary r) = "MILD - Some issues detected")
       /\ (score = 0 ->
           assessment (summary r) = "CLEAN - No corruption indicators found").
Proof.
  split.
  - intros Hw. destruct (analyze_all_run now data self Hw) as (r & self' & H & _).
    now exists r, self'.
  - intros r self' Hrun score.
    destruct (analyze_all_inv _ _ _ _ _ Hrun)
      as (g1 & g2 & g3 & _ & _ & _ & _ & _ & _ & Hsc & Hpos & _ & _ & _ & Hlab & _).
    unfold _assess_corruption_level in Hlab. rewrite Hsc in Hlab.
    fold score in Hlab, Hpos. inversion Hlab as [Hl]. clear Hlab.
    split; [exact Hpos|].
    repeat split; intros Hcase.
    + destruct (Z.leb_spec 10 score); [reflexivity | lia].
    + destruct (Z.leb_spec 10 score); [lia|].
      destruct (Z.leb_spec 5 score); [reflexivity | lia].
    + destruct (Z.leb_spec 10 score); [lia|].
      destruct (Z.leb_spec 5 score); [lia|].
      destruct (Z.ltb_spec 0 score); [reflexivity | lia].
    + destruct (Z.leb_spec 10 score); [lia|].
      destruct (Z.leb_spec 5 score); [lia|].
      destruct (Z.ltb_spec 0 score); [lia | reflexivity].
Qed.

Lemma assessment_by_score_witness :
  exists r self',
    analyze_all "2025-11-27T13:00:00" snapshot_severe __init__ = (Returns r, self')
    /\ assessment (summary r) = "SEVERE - Multiple corruption indicators present".
Proof.
  destruct (assessment_by_score "2025-11-27T13:00:00" snapshot_severe __init__)
    as [Hret Hlab].
  destruct (Hret eq_refl) as (r & self' & Hrun).
  exists r, self'. split; [exact Hrun|].
  destruct (Hlab r self' Hrun) as (_ & Hsevere & _).
  apply Hsevere.
  vm_compute in Hrun. inversion Hrun. vm_compute. discriminate.
Defined.

(** ** The recommendations *)

(** With a positive score the report recommends the four sentences of the
    source, which are not the ones the specification quotes. *)
Lemma recommendations_wording :
  exists r self',
    analyze_all "2025-11-27T13:00:00" snapshot_circle_error __init__
      = (Returns r, self')
    /\ corruption_score (summary r) = 3
    /\ recommendations r <> spec_recommendations (corruption_score (summary r)).
Proof.
  eexists. eexists. split; [vm_compute; reflexivity|].
  split; [reflexivity|]. discriminate.
Qed.

(** C6. [analyze_all] returns a report on every snapshot, and the
    recommendations of a report are empty exactly when its score is 0; with
    a positive score they are the four sentences of the source in their
    order, and from 10 on the urgency sentence comes first, five entries in
    all. *)
Theorem recommendations_by_score
    (now : string) (data : value) (self : EvidenceAnalyzer) :
  (well_shaped data = true ->
   exists r self', analyze_all now data self = (Returns r, self'))
  /\ forall r self',
       analyze_all now data self = (Returns r, self') ->
       let score := corruption_score (summary r) in
       (recommendations r = [] <-> score = 0)
       /\ (0 < score < 10 ->
           recommendations r =
             ["DO NOT restore from this backup to new devices";
              "Collect sysdiagnose for documentation";
              "Contact Apple Support with case reference";
              "Consider creating new clean backup after remediation"])
       /\ (10 <= score ->
           recommendations r =
             ["URGENT: Severe corruption detected - avoid using this backup";
              "DO NOT restore from this backup to new devices";
              "Collect sysdiagnose for documentation";
              "Contact Apple Support with case reference";
              "Consider creating new clean backup after remediation"]
           /\ length (recommendations r) = 5%nat).
Proof.
  split.
  - intros Hw. destruct (analyze_all_run now data self Hw) as (r & self' & H & _).
    now exists r, self'.
  - intros r self' Hrun score.
    destruct (analyze_all_inv _ _ _ _ _ Hrun)
      as (g1 & g2 & g3 & _ & _ & _ & _ & _ & _ & Hsc & Hpos & _ & _ & _ & _ & Hrec & _).
    unfold _generate_recommendations in Hrec. rewrite Hsc in Hrec.
    fold score in Hrec, Hpos. inversion Hrec as [Hr]. clear Hrec.
    destruct (Z.ltb_spec 0 score), (Z.leb_spec 10 score); cbn [app];
      (split; [split; [intros; try discriminate; lia | intros; try reflexivity; lia]|]);
      (split; [intros; try reflexivity; lia|]);
      intros; try lia; split; reflexivity.
Qed.

Lemma recommendations_by_score_witness :
  exists r self',
    analyze_all "2025-11-27T13:00:00" snapshot_severe __init__ = (Returns r, self')
    /\ length (recommendations r) = 5%nat.
Proof.
  destruct (recommendations_by_score "2025-11-27T13:00:00" snapshot_severe __init__)
    as [Hret Hrec].
  destruct (Hret eq_refl) as (r & self' & Hrun).
  exists r, self'. split; [exact Hrun|].
  destruct (Hrec r self' Hrun) as (_ & _ & Hsevere).
  apply Hsevere.
  vm_compute in Hrun. inversion Hrun. vm_compute. discriminate.
Defined.

(** ** Missing and misshapen input *)

(** A section that is there with another shape makes [analyze_all] raise:
    a [status_keychain] that is a list has no [get], and a [creation_date]
    that is [None] cannot be searched. *)
Lemma analyze_all_raises_on_other_shapes :
  fst (analyze_all "2025-11-27T13:00:00"
         (VDict [("status_keychain", VList [])]) __init__)
    = Raises AttributeError
  /\ fst (analyze_all "2025-11-27T13:00:00"
            (VDict [("keychain_items",
                     VList [VDict [("service", VStr "WiFi");
                                   ("creation_date", VNone)]])]) __init__)
       = Raises TypeError.
Proof. split; reflexivity. Qed.

(** C7. On a mapping whose sections and fields are missing or have their
    documented shape, [analyze_all] returns a report; a rule whose section
    is missing reports no issue; and when no signature matches, the report
    has score 0, the CLEAN label, no issue in any group and no
    recommendation. *)
Theorem analyze_all_total_on_shaped
    (now : string) (data : value) (self : EvidenceAnalyzer) :
  well_shaped data = true ->
  exists r self' g1 g2 g3,
    analyze_all now data self = (Returns r, self')
    /\ findings r = [g1; g2; g3]
    /\ (field data "status_keychain" = None -> issues g1 = [])
    /\ (field data "keychain_items" = None -> issues g2 = [])
    /\ (field data "backup_metadata" = None -> issues g3 = [])
    /\ (circle_is_error data = false ->
        unknown_view_names data = [] ->
        epoch_matches data = [] ->
        backup_fires data = false ->
        corruption_score (summary r) = 0
        /\ assessment (summary r) = "CLEAN - No corruption indicators found"
        /\ total_issues (summary r) = 0
        /\ issues g1 = [] /\ issues g2 = [] /\ issues g3 = []
        /\ recommendations r = []).
Proof.
  intros Hw.
  destruct (analyze_all_run now data self Hw) as (r & self' & Hrun & Hf & Hsc).
  destruct (analyze_all_inv _ _ _ _ _ Hrun)
    as (g1 & g2 & g3 & Hf' & _ & _ & _ & _ & _ & Hsc' & _ & _ & Hti & _
        & Hlab & Hrec & _).
  rewrite Hf in Hf'. inversion Hf' as [[H1 H2 H3]]. clear Hf'.
  exists r, self', g1, g2, g3.
  split; [exact Hrun|]. split; [now rewrite Hf, H1, H2, H3|].
  subst g1 g2 g3. cbn [issues] in *.
  split; [|split; [|split]].
  - intros Hnone.
    unfold keychain_issues, circle_is_error, unknown_view_names, view_entries,
      circle_status_of, status_of, field_or. now rewrite Hnone.
  - intros Hnone.
    unfold timestamp_issues, epoch_matches, keychain_items_of, field_or.
    now rewrite Hnone.
  - intros Hnone.
    unfold backup_issues, backup_fires, sync_active_of, last_backup_of,
      metadata_of, field_or. now rewrite Hnone.
  - intros Hc Hu He Hb.
    unfold keychain_weight, timestamp_weight, backup_weight in Hsc.
    unfold keychain_issues, timestamp_issues, backup_issues in *.
    rewrite Hc, Hu, He, Hb in *. cbn in Hsc, Hti.
    unfold _assess_corruption_level in Hlab.
    unfold _generate_recommendations in Hrec.
    rewrite Hsc', Hsc in Hlab, Hrec. cbn in Hlab, Hrec.
    inversion Hlab. inversion Hrec.
    repeat split; try reflexivity; assumption.
Qed.

Lemma analyze_all_total_on_shaped_witness :
  well_shaped (VDict []) = true
  /\ exists r self',
       analyze_all "2025-11-27T13:00:00" (VDict []) (mkAnalyzer [] 7)
         = (Returns r, self')
       /\ corruption_score (summary r) = 0
       /\ recommendations r = [].
Proof.
  split; [reflexivity|].
  destruct (analyze_all_total_on_shaped "2025-11-27T13:00:00" (VDict [])
              (mkAnalyzer [] 7) eq_refl)
    as (r & self' & g1 & g2 & g3 & Hrun & _ & _ & _ & _ & Hclean).
  exists r, self'. split; [exact Hrun|].
  destruct (Hclean eq_refl eq_refl eq_refl eq_refl) as (Hs & _ & _ & _ & _ & _ & Hr).
  split; assumption.
Defined.

(** ** Independence from earlier runs *)

(** C8. Whatever was analyzed before on the same analyzer, and whatever it
    left in [self.findings] and [self.corruption_score], the analysis of a
    snapshot gives the result and leaves the state that a new analyzer
    gives and leaves; and two analyses of one snapshot, at any two times
    and from any two states, differ in the timestamp only. *)
Theorem analyze_all_isolated
    (nowA nowB nowB' : string) (A B : value) (self self1 self2 : EvidenceAnalyzer) :
  analyze_all nowB B (snd (analyze_all nowA A self)) = analyze_all nowB B __init__
  /\ without_timestamp (fst (analyze_all nowB B self1))
     = without_timestamp (fst (analyze_all nowB' B self2))
  /\ snd (analyze_all nowB B self1) = snd (analyze_all nowB' B self2).
Proof.
  split; [apply analyze_all_resets|].
  unfold analyze_all, bind, reset, append_finding, get_self, ret,
    _assess_corruption_level, _generate_recommendations.
  destruct (analyze_keychain_status B _) as [[g1|e] s1]; [|split; reflexivity].
  destruct (analyze_timestamps B _) as [[g2|e] s2]; [|split; reflexivity].
  destruct (analyze_backup_metadata B _) as [[g3|e] s3]; split; reflexivity.
Qed.

(** ** The shape of the report *)

(** C9. [analyze_all] returns a report on every snapshot, the empty one
    included, and a report has exactly three finding groups, named after
    the keychain-status, timestamp and backup-activity analyses in this
    order, so that [total_findings] is 3 whatever matched. *)
Theorem report_has_three_findings
    (now : string) (data : value) (self : EvidenceAnalyzer) :
  (well_shaped data = true ->
   exists r self', analyze_all now data self = (Returns r, self'))
  /\ (exists r self',
        analyze_all now (VDict []) self = (Returns r, self')
        /\ length (findings r) = 3%nat
        /\ total_findings (summary r) = 3)
  /\ forall r self',
       analyze_all now data self = (Returns r, self') ->
       length (findings r) = 3%nat
       /\ total_findings (summary r) = 3
       /\ map name (findings r) =
            ["Keychain Status Analysis"; "Timestamp Validation";
             "Backup Activity Analysis"].
Proof.
  split; [|split].
  - intros Hw. destruct (analyze_all_run now data self Hw) as (r & self' & H & _).
    now exists r, self'.
  - eexists. eexists. split; [vm_compute; reflexivity|]. split; reflexivity.
  - intros r self' Hrun.
    destruct (analyze_all_inv _ _ _ _ _ Hrun)
      as (g1 & g2 & g3 & Hf & _ & _ & _ & Hnames & _ & _ & _ & Htf & _).
    split; [now rewrite Hf|]. split; [exact Htf|].
    now rewrite Hf.
Qed.

Lemma report_has_three_findings_witness :
  exists r self',
    analyze_all "2025-11-27T13:00:00" snapshot_severe __init__ = (Returns r, self')
    /\ total_findings (summary r) = 3.
Proof.
  destruct (report_has_three_findings "2025-11-27T13:00:00" snapshot_severe __init__)
    as (Hret & _ & Hthree).
  destruct (Hret eq_refl) as (r & self' & Hrun).
  exists r, self'. split; [exact Hrun|].
  exact (proj1 (proj2 (Hthree r self' Hrun))).
Defined.

(** ** Group severity *)

(** C10. [analyze_all] returns a report on every snapshot, and in a report
    the severity of each group is ["none"] exactly when the group has no
    issue and ["high"] otherwise, never ["medium"];
    [high_severity_findings] counts the groups that have an issue. So one
    to five unknown views give an issue of severity ["medium"] inside a
    group of severity ["high"] that is counted. *)
Theorem group_severity_none_or_high
    (now : string) (data : value) (self : EvidenceAnalyzer) :
  (well_shaped data = true ->
   exists r self', analyze_all now data self = (Returns r, self'))
  /\ forall r self',
       analyze_all now data self = (Returns r, self') ->
       Forall (fun g =>
                 (severity g = "none" <-> issues g = [])
                 /\ (severity g = "high" <-> issues g <> [])
                 /\ severity g <> "medium")
              (findings r)
       /\ high_severity_findings (summary r) =
            Z.of_nat (length (filter (fun g => match issues g with
                                               | [] => false
                                               | _ :: _ => true
                                               end) (findings r)))
       /\ (well_shaped data = true ->
           (1 <= length (unknown_view_names data) <= 5)%nat ->
           exists g rest i,
             findings r = g :: rest
             /\ In i (issues g)
             /\ issue_severity i = "medium"
             /\ severity g = "high"
             /\ 1 <= high_severity_findings (summary r)).
Proof.
  split.
  - intros Hw. destruct (analyze_all_run now data self Hw) as (r & self' & H & _).
    now exists r, self'.
  - intros r self' Hrun.
    destruct (analyze_all_inv _ _ _ _ _ Hrun)
      as (g1 & g2 & g3 & Hf & Hc1 & Hc2 & Hc3 & _ & _ & _ & _ & _ & _ & Hhigh & _).
    assert (Hcoh : forall g, coherent g ->
              (severity g = "none" <-> issues g = [])
              /\ (severity g = "high" <-> issues g <> [])
              /\ severity g <> "medium").
    { intros g Hg. unfold coherent in Hg. rewrite Hg.
      destruct (issues g); cbn; repeat split; intros; congruence. }
    assert (Hcount : forall g, coherent g ->
              (if String.eqb (severity g) "high" then 1 else 0) =
              Z.of_nat (length (if match issues g with [] => false | _ :: _ => true end
                                then [g] else []))).
    { intros g Hg. unfold coherent in Hg. rewrite Hg.
      destruct (issues g); reflexivity. }
    split; [|split].
    + rewrite Hf.
      apply Forall_cons; [auto|]. apply Forall_cons; [auto|].
      apply Forall_cons; [auto|]. apply Forall_nil.
    + rewrite Hhigh, Hf. unfold sum_Z. cbn [map fold_right filter].
      rewrite (Hcount g1 Hc1), (Hcount g2 Hc2), (Hcount g3 Hc3).
      destruct (issues g1), (issues g2), (issues g3); reflexivity.
    + intros Hw Hlen.
      destruct (analyze_all_run now data self Hw) as (r' & s' & Hrun' & Hf' & _).
      rewrite Hrun in Hrun'. inversion Hrun'; subst r' s'.
      rewrite Hf' in Hf. inversion Hf as [[H1 H2 H3]].
      eexists. eexists. exists (pcs_issue (unknown_view_names data)).
      split; [exact Hf'|]. cbn [issues severity].
      assert (Hin : In (pcs_issue (unknown_view_names data)) (keychain_issues data)).
      { unfold keychain_issues. apply in_or_app. right.
        destruct (unknown_view_names data); [cbn in Hlen; lia | now left]. }
      split; [exact Hin|]. split; [|split].
      * unfold pcs_issue, issue_severity.
        destruct (Z.ltb_spec 5 (Z.of_nat (length (unknown_view_names data))));
          [lia | reflexivity].
      * destruct (keychain_issues data); [contradiction | reflexivity].
      * rewrite Hhigh, <- H1. unfold sum_Z. cbn [map fold_right severity].
        destruct (keychain_issues data); [contradiction|]. cbn [group_severity].
        change (String.eqb "high" "high") with true. cbv iota.
        destruct (String.eqb (severity g2) "high"), (String.eqb (severity g3) "high");
          lia.
Qed.

Lemma group_severity_none_or_high_witness :
  exists r self' g rest i,
    analyze_all "2025-11-27T13:00:00" snapshot_three_unknown __init__
      = (Returns r, self')
    /\ findings r = g :: rest
    /\ In i (issues g)
    /\ issue_severity i = "medium"
    /\ severity g = "high"
    /\ 1 <= high_severity_findings (summary r).
Proof.
  destruct (group_severity_none_or_high "2025-11-27T13:00:00"
              snapshot_three_unknown __init__) as [Hret Hsev].
  destruct (Hret eq_refl) as (r & self' & Hrun).
  destruct (Hsev r self' Hrun) as (_ & _ & Hmed).
  destruct (Hmed eq_refl) as (g & rest & i & H); [cbn; lia|].
  exists r, self', g, rest, i. split; [exact Hrun | exact H].
Defined.

(** * The code around the analyzer *)

(** ** Dictionaries *)

Lemma lookup_dict_set_same {V : Type} (d : list (string * V)) (key : string) (v : V) :
  lookup (dict_set d key v) key = Some v.
Proof.
  induction d as [|[k x] d IH]; cbn.
  - now rewrite String.eqb_refl.
  - destruct (String.eqb k key) eqn:E; cbn; rewrite E; [reflexivity | exact IH].
Qed.

Lemma lookup_dict_set_other {V : Type} (d : list (string * V)) (key other : string)
    (v : V) :
  other <> key -> lookup (dict_set d other v) key = lookup d key.
Proof.
  intros Hne. induction d as [|[k x] d IH]; cbn.
  - apply String.eqb_neq in Hne. now rewrite Hne.
  - destruct (String.eqb k other) eqn:E; cbn.
    + apply String.eqb_eq in E. subst k.
      apply String.eqb_neq in Hne. now rewrite Hne.
    + destruct (String.eqb k key); [reflexivity | exact IH].
Qed.

Lemma dict_set_keys {V : Type} (d : list (string * V)) (key : string) (v : V) :
  map fst (dict_set d key v) =
  if existsb (String.eqb key) (map fst d) then map fst d else map fst d ++ [key].
Proof.
  induction d as [|[k x] d IH]; cbn; [reflexivity|].
  rewrite (String.eqb_sym key k).
  destruct (String.eqb k key) eqn:E; cbn; [reflexivity|].
  rewrite IH. destruct (existsb (String.eqb key) (map fst d)); reflexivity.
Qed.

Lemma dict_set_NoDup {V : Type} (d : list (string * V)) (key : string) (v : V) :
  NoDup (map fst d) -> NoDup (map fst (dict_set d key v)).
Proof.
  intros Hd. rewrite dict_set_keys.
  destruct (existsb (String.eqb key) (map fst d)) eqn:E; [exact Hd|].
  apply NoDup_app; [exact Hd | repeat constructor; intros [] | ].
  intros k Hin [Hk|[]]. subst k.
  assert (existsb (String.eqb key) (map fst d) = true); [|congruence].
  apply existsb_exists. exists key. split; [exact Hin | apply String.eqb_refl].
Qed.

Lemma dict_set_Forall {V : Type} (P : V -> Prop) (d : list (string * V))
    (key : string) (v : V) :
  P v -> Forall (fun kv => P (snd kv)) d ->
  Forall (fun kv => P (snd kv)) (dict_set d key v).
Proof.
  intros Hv Hd. induction Hd as [|[k x] d Hx Hd IH]; cbn.
  - now constructor.
  - destruct (String.eqb k key); constructor; assumption.
Qed.

(** ** The mock backup system *)

(** X1. A backup followed by a restore of the same device hands back the
    keychain that was backed up, whatever the system held before (an
    earlier backup of the device is replaced); the backup reports success,
    is stored unvalidated, and neither call validates or warns. *)
Theorem restore_returns_last_backup
    (now device_id : string) (keychain_data metadata : value)
    (self : conftest.MockiCloudBackupSystem) :
  let created := conftest.create_backup now device_id keychain_data metadata self in
  fst created = Ok true
  /\ conftest.restore_backup device_id (snd created) = (Ok keychain_data, snd created)
  /\ lookup (conftest.backups (snd created)) device_id
     = Some (conftest.mkBackup keychain_data metadata now false)
  /\ conftest.validation_performed (snd created) = conftest.validation_performed self
  /\ conftest.warnings_shown (snd created) = conftest.warnings_shown self.
Proof.
  cbn. unfold conftest.restore_backup. cbn.
  rewrite lookup_dict_set_same. repeat split.
Qed.

Lemma calls_snoc (cs : list conftest.Call) (c : conftest.Call)
    (self : conftest.MockiCloudBackupSystem) :
  conftest.calls (cs ++ [c]) self = conftest.call c (conftest.calls cs self).
Proof. unfold conftest.calls. now rewrite fold_left_app. Qed.

Lemma restore_keeps_self (device_id : string)
    (self : conftest.MockiCloudBackupSystem) :
  snd (conftest.restore_backup device_id self) = self.
Proof.
  unfold conftest.restore_backup.
  destruct (lookup (conftest.backups self) device_id); reflexivity.
Qed.

(** X2. On a system that was used for any sequence of backups and restores
    none of which backed [device_id] up, a restore of [device_id] raises
    [ValueError] with the device in its message and changes nothing. *)
Theorem restore_without_backup_raises
    (cs : list conftest.Call) (device_id : string) :
  Forall (spares device_id) cs ->
  let self := conftest.calls cs conftest.__init__ in
  conftest.restore_backup device_id self
  = (Err (ValueError ("No backup found for device " ++ device_id)), self).
Proof.
  intros Hcs self.
  assert (Hnone : lookup (conftest.backups self) device_id = None).
  { subst self. induction cs as [|c cs IH] using rev_ind; [reflexivity|].
    apply Forall_app in Hcs. destruct Hcs as [Hcs Hc].
    inversion Hc as [|c' l Hsp _]; subst.
    rewrite calls_snoc. destruct c as [now d k md|d]; cbn.
    - cbn in Hsp. rewrite lookup_dict_set_other; [now apply IH | exact Hsp].
    - rewrite restore_keeps_self. now apply IH. }
  unfold conftest.restore_backup. now rewrite Hnone.
Qed.

Lemma restore_without_backup_raises_witness :
  Forall (spares "device-B")
    [conftest.CallCreate "2025-11-27T13:00:00" "device-A" snapshot_severe (VDict []);
     conftest.CallRestore "device-A"]
  /\ fst (conftest.restore_backup "device-B"
            (conftest.calls
               [conftest.CallCreate "2025-11-27T13:00:00" "device-A"
                  snapshot_severe (VDict []);
                conftest.CallRestore "device-A"] conftest.__init__))
     = Err (ValueError "No backup found for device device-B").
Proof.
  assert (H : Forall (spares "device-B")
    [conftest.CallCreate "2025-11-27T13:00:00" "device-A" snapshot_severe (VDict []);
     conftest.CallRestore "device-A"]).
  { repeat constructor. cbn. discriminate. }
  split; [exact H|].
  rewrite (restore_without_backup_raises _ "device-B" H). reflexivity.
Defined.

(** X3. A backup of one device does not change what a restore of another
    device gives. *)
Theorem backup_of_other_device_is_kept
    (now device_id other : string) (keychain_data metadata : value)
    (self : conftest.MockiCloudBackupSystem) :
  other <> device_id ->
  fst (conftest.restore_backup device_id
         (snd (conftest.create_backup now other keychain_data metadata self)))
  = fst (conftest.restore_backup device_id self).
Proof.
  intros Hne. unfold conftest.restore_backup. cbn.
  rewrite (lookup_dict_set_other _ _ _ _ Hne).
  destruct (lookup (conftest.backups self) device_id); reflexivity.
Qed.

Lemma backup_of_other_device_is_kept_witness :
  "device-B" <> "device-A"
  /\ fst (conftest.restore_backup "device-A"
            (snd (conftest.create_backup "2025-11-28T09:00:00" "device-B"
                    snapshot_clean (VDict [])
                    (snd (conftest.create_backup "2025-11-27T13:00:00" "device-A"
                            snapshot_severe (VDict []) conftest.__init__)))))
     = Ok snapshot_severe.
Proof.
  assert (H : "device-B" <> "device-A") by discriminate.
  split; [exact H|].
  rewrite (backup_of_other_device_is_kept _ "device-A" "device-B" _ _ _ H).
  reflexivity.
Defined.

(** X4. Whatever backups and restores a new system serves, it never
    validates and never warns: both flags stay [False], every stored backup
    is marked unvalidated, and there is one backup per device. *)
Theorem backup_system_never_validates (cs : list conftest.Call) :
  let self := conftest.calls cs conftest.__init__ in
  conftest.validation_performed self = false
  /\ conftest.warnings_shown self = false
  /\ Forall (fun kv => conftest.validated (snd kv) = false) (conftest.backups self)
  /\ NoDup (map fst (conftest.backups self)).
Proof.
  induction cs as [|c cs IH] using rev_ind; cbn zeta.
  - cbn. repeat split; constructor.
  - rewrite calls_snoc. cbn zeta in IH. destruct IH as (Hv & Hw & Hall & Hnd).
    destruct c as [now d k md|d]; cbn [conftest.call].
    + cbn. repeat split; try assumption.
      * apply (dict_set_Forall (fun b => conftest.validated b = false));
          [reflexivity | exact Hall].
      * now apply dict_set_NoDup.
    + rewrite restore_keeps_self. repeat split; assumption.
Qed.

(** X5. After a backup of a keychain, any number of cycles in which the
    device restores and backs the restored keychain up again leaves the
    same keychain to restore, and still nothing was validated or warned
    about. *)
Theorem restore_cycles_keep_keychain
    (n : nat) (nows : nat -> string) (now device_id : string)
    (keychain_data metadata metadata' : value)
    (self : conftest.MockiCloudBackupSystem) :
  let start := snd (conftest.create_backup now device_id keychain_data metadata self) in
  let final := conftest.restore_cycles n nows device_id metadata' start in
  fst (conftest.restore_backup device_id final) = Ok keychain_data
  /\ conftest.validation_performed final = conftest.validation_performed self
  /\ conftest.warnings_shown final = conftest.warnings_shown self.
Proof.
  intros start final.
  assert (Hstart : exists b, lookup (conftest.backups start) device_id = Some b
                             /\ conftest.keychain b = keychain_data).
  { eexists. split; [apply lookup_dict_set_same | reflexivity]. }
  assert (Hflags : conftest.validation_performed start
                   = conftest.validation_performed self
                   /\ conftest.warnings_shown start = conftest.warnings_shown self)
    by (split; reflexivity).
  subst final. clearbody start. revert start Hstart Hflags.
  induction n as [|n IH]; intros start (b & Hb & Hk) (Hv & Hw).
  - cbn. unfold conftest.restore_backup. rewrite Hb, Hk. now repeat split.
  - assert (Hr : conftest.restore_backup device_id start = (Ok keychain_data, start))
      by (unfold conftest.restore_backup; now rewrite Hb, Hk).
    cbn [conftest.restore_cycles]. rewrite Hr. apply IH.
    + eexists. split; [apply lookup_dict_set_same | reflexivity].
    + split; assumption.
Qed.

(** ** The helpers that look for corruption *)

Lemma fold_left_append_filter {A B : Type} (p : A -> bool) (f : A -> B)
    (l : list A) (acc : list B) :
  fold_left (fun acc x => if p x then acc ++ [f x] else acc) l acc
  = acc ++ map f (filter p l).
Proof.
  revert acc. induction l as [|x l IH]; intros acc; cbn.
  - now rewrite app_nil_r.
  - rewrite IH. destruct (p x); cbn; [now rewrite <- app_assoc | reflexivity].
Qed.

Lemma existsb_filter_nil {A : Type} (p : A -> bool) (l : list A) :
  existsb p l = match filter p l with [] => false | _ :: _ => true end.
Proof.
  induction l as [|x l IH]; cbn; [reflexivity|].
  destruct (p x); [reflexivity | exact IH].
Qed.

Lemma existsb_of_map {A B : Type} (p : B -> bool) (g : A -> B) (l : list A) :
  existsb p (map g l) = existsb (fun x => p (g x)) l.
Proof.
  induction l as [|x l IH]; cbn; [reflexivity | now rewrite IH].
Qed.

Lemma any_epoch_creation_run (todo : list value) :
  forallb shape_item todo = true ->
  conftest.any_epoch_creation todo
  = Returns (existsb (fun item =>
                        str_contains "1970-01-01" (date_of item "creation_date"))
               todo).
Proof.
  induction todo as [|item rest IH]; intros Hs; [reflexivity|].
  cbn in Hs. apply andb_true_iff in Hs. destruct Hs as [Hi Hr].
  unfold shape_item, absent_or in Hi.
  destruct item as [| | | | | |d]; try discriminate.
  cbn [conftest.any_epoch_creation existsb].
  unfold date_of, conftest.is_epoch_timestamp. cbn in Hi |- *.
  destruct (dict_get d "creation_date") as [[| | | |c| |]|]; try discriminate; cbn.
  - destruct (str_contains "1970-01-01" c); [reflexivity | now apply IH].
  - now apply IH.
Qed.

Lemma epoch_creation_issues_run (py_str : value -> string) (todo : list value) :
  forallb shape_item todo = true ->
  forall acc,
    conftest.epoch_creation_issues py_str todo acc
    = Returns
        (acc ++ map (fun item =>
                       ("Epoch timestamp in "
                          ++ py_str (field_or item "service" VNone))%string)
                  (filter (fun item =>
                             str_contains "1970-01-01" (date_of item "creation_date"))
                     todo)).
Proof.
  induction todo as [|item rest IH]; intros Hs acc.
  - cbn. now rewrite app_nil_r.
  - cbn in Hs. apply andb_true_iff in Hs. destruct Hs as [Hi Hr].
    unfold shape_item, absent_or in Hi.
    destruct item as [| | | | | |d]; try discriminate.
    cbn [conftest.epoch_creation_issues filter].
    unfold date_of, field_or. cbn in Hi |- *.
    destruct (dict_get d "creation_date") as [[| | | |c| |]|]; try discriminate; cbn.
    + destruct (str_contains "1970-01-01" c); cbn.
      * rewrite (IH Hr). cbn. now rewrite <- app_assoc.
      * now apply IH.
    + now apply IH.
Qed.

(** The three indicators the helpers look for. *)
Lemma has_corruption_indicators_run (data : value) :
  shape_status data = true ->
  shape_items data = true ->
  conftest.has_corruption_indicators data
  = Returns (circle_is_error data
             || match unknown_view_names data with [] => false | _ :: _ => true end
             || match creation_epoch_items data with [] => false | _ :: _ => true end).
Proof.
  unfold shape_status, shape_items, absent_or, circle_is_error, unknown_view_names,
    creation_epoch_items, keychain_items_of, view_entries, circle_status_of,
    status_of, field_or, conftest.has_corruption_indicators.
  destruct data as [| | | | | |d]; try discriminate. cbn.
  intros Hst Hit.
  assert (Hloop :
    (keychain_items <- Returns match dict_get d "keychain_items" with
                               | Some v => v
                               | None => VList []
                               end ;;
     todo <- detached (py_iter keychain_items) ;;
     conftest.any_epoch_creation todo)%out
    = Returns match filter (fun item =>
                              str_contains "1970-01-01" (date_of item "creation_date"))
                      match match dict_get d "keychain_items" with
                            | Some v => v
                            | None => VList []
                            end with
                      | VList l => l
                      | _ => []
                      end with
              | [] => false
              | _ :: _ => true
              end).
  { destruct (dict_get d "keychain_items") as [[| | | | |its|]|];
      try discriminate; cbn; [|reflexivity].
    rewrite (any_epoch_creation_run its Hit). now rewrite existsb_filter_nil. }
  destruct (dict_get d "status_keychain") as [[| | | | | |s]|]; try discriminate; cbn.
  - cbn in Hst.
    destruct (dict_get s "circle_status") as [c|]; cbn;
      try destruct (py_eq_str c "Error"); cbn; try reflexivity;
      (destruct (dict_get s "view_status") as [[| | | | | |vs]|];
       try discriminate; cbn;
       [ rewrite existsb_of_map, existsb_filter_nil;
         destruct (filter (fun kv => py_eq_str (snd kv) "unknown") vs); cbn;
         [exact Hloop | reflexivity]
       | exact Hloop ]).
  - exact Hloop.
Qed.

Lemma validate_keychain_run (py_str : value -> string) (data : value)
    (self : conftest.MockiCloudBackupSystem) :
  shape_status data = true ->
  shape_items data = true ->
  conftest.validate_keychain py_str data self
  = (let found :=
       (if circle_is_error data then ["circle_status is Error"%string] else [])
       ++ map (fun view => ("PCS view " ++ view ++ " is unknown")%string)
            (unknown_view_names data)
       ++ map (fun item =>
                 ("Epoch timestamp in "
                    ++ py_str (field_or item "service" VNone))%string)
            (creation_epoch_items data) in
     (Ok (conftest.mkValidation (Nat.eqb (length found) 0) found true),
      conftest.mkSystem (conftest.backups self) true (conftest.warnings_shown self))).
Proof.
  unfold shape_status, shape_items, absent_or, circle_is_error, unknown_view_names,
    creation_epoch_items, keychain_items_of, view_entries, circle_status_of,
    status_of, field_or, conftest.validate_keychain.
  destruct data as [| | | | | |d]; try discriminate. cbn -[String.append].
  intros Hst Hit.
  assert (Hloop : forall acc,
    (todo <- detached (py_iter match dict_get d "keychain_items" with
                                | Some v => v
                                | None => VList []
                                end) ;;
     issues <- conftest.epoch_creation_issues py_str todo acc ;;
     Returns (conftest.mkValidation (Nat.eqb (length issues) 0) issues true))%out
    = (let found :=
         acc ++ map (fun item =>
                       ("Epoch timestamp in "
                          ++ py_str match field item "service" with
                                    | Some v => v
                                    | None => VNone
                                    end)%string)
                  (filter (fun item =>
                             str_contains "1970-01-01" (date_of item "creation_date"))
                     match match dict_get d "keychain_items" with
                           | Some v => v
                           | None => VList []
                           end with
                     | VList l => l
                     | _ => []
                     end) in
       Returns (conftest.mkValidation (Nat.eqb (length found) 0) found true))).
  { intros acc.
    destruct (dict_get d "keychain_items") as [[| | | | |its|]|];
      try discriminate; cbn -[String.append].
    - rewrite (epoch_creation_issues_run py_str its Hit). reflexivity.
    - now rewrite app_nil_r. }
  assert (Hmap : forall vs : list (string * value),
    map (fun view => ("PCS view " ++ view ++ " is unknown")%string)
      (map fst (filter (fun kv => py_eq_str (snd kv) "unknown") vs))
    = map (fun kv => ("PCS view " ++ fst kv ++ " is unknown")%string)
        (filter (fun kv => py_eq_str (snd kv) "unknown") vs))
    by (intros vs; now rewrite map_map).
  destruct (dict_get d "status_keychain") as [[| | | | | |s]|]; try discriminate;
    cbn -[String.append].
  - cbn in Hst.
    destruct (dict_get s "view_status") as [[| | | | | |vs]|];
      try discriminate; cbn -[String.append];
      rewrite ?fold_left_append_filter, ?Hmap, Hloop; cbn -[String.append];
      rewrite <- ?app_assoc; reflexivity.
  - rewrite Hloop. reflexivity.
Qed.

(** X6. On a snapshot whose status and keychain items have their shape,
    [validate_keychain] marks the system as validated and returns, in this
    order, one issue if [circle_status] is ["Error"], one per view whose
    state is ["unknown"] and one per keychain item whose creation date
    contains ["1970-01-01"], naming its service; [valid] holds exactly when
    there is none, and [has_corruption_indicators] answers the opposite of
    [valid]. *)
Theorem validate_keychain_lists_indicators
    (py_str : value -> string) (data : value)
    (self : conftest.MockiCloudBackupSystem) :
  shape_status data = true ->
  shape_items data = true ->
  let found :=
    (if circle_is_error data then ["circle_status is Error"%string] else [])
    ++ map (fun view => ("PCS view " ++ view ++ " is unknown")%string)
         (unknown_view_names data)
    ++ map (fun item =>
              ("Epoch timestamp in " ++ py_str (field_or item "service" VNone))%string)
         (creation_epoch_items data) in
  conftest.validate_keychain py_str data self
  = (Ok (conftest.mkValidation
           match found with [] => true | _ :: _ => false end found true),
     conftest.mkSystem (conftest.backups self) true (conftest.warnings_shown self))
  /\ conftest.has_corruption_indicators data
     = Returns match found with [] => false | _ :: _ => true end.
Proof.
  intros Hst Hit found. split.
  - rewrite (validate_keychain_run py_str data self Hst Hit). fold found.
    cbn zeta. destruct found; reflexivity.
  - rewrite (has_corruption_indicators_run data Hst Hit). subst found.
    destruct (circle_is_error data); [reflexivity|]. cbn.
    destruct (unknown_view_names data); [|reflexivity]. cbn.
    destruct (creation_epoch_items data); reflexivity.
Qed.

Lemma validate_keychain_lists_indicators_witness :
  shape_status snapshot_three_unknown = true
  /\ shape_items snapshot_three_unknown = true
  /\ conftest.validate_keychain
       (fun v => match v with VStr s => s | _ => "None"%string end)
       snapshot_three_unknown conftest.__init__
     = (Ok (conftest.mkValidation false
              ["PCS view Home is unknown"%string;
               "PCS view Health is unknown"%string;
               "PCS view Engram is unknown"%string] true),
        conftest.mkSystem [] true false).
Proof.
  split; [reflexivity|]. split; [reflexivity|].
  exact (proj1 (validate_keychain_lists_indicators
                  (fun v => match v with VStr s => s | _ => "None"%string end)
                  snapshot_three_unknown conftest.__init__ eq_refl eq_refl)).
Defined.

Lemma creation_epoch_is_epoch_match (data : value) :
  creation_epoch_items data <> [] -> epoch_matches data <> [].
Proof.
  unfold creation_epoch_items, epoch_matches, is_epoch_item.
  induction (keychain_items_of data) as [|item l IH]; cbn; [congruence|].
  destruct (str_contains "1970-01-01" (date_of item "creation_date")); cbn.
  - discriminate.
  - intros H. destruct (str_contains "1970-01-01" (date_of item "modification_date"));
      [discriminate | now apply IH].
Qed.

(** X7. On every snapshot, when [has_corruption_indicators] answers
    [True] the analyzer's score is positive; the score is positive without
    the helper noticing exactly when an item is at the epoch (in its
    modification date only) or the backup-activity rule fires. *)
Theorem indicators_imply_positive_score
    (now : string) (data : value) (self : EvidenceAnalyzer) :
  well_shaped data = true ->
  exists b r self',
    conftest.has_corruption_indicators data = Returns b
    /\ analyze_all now data self = (Returns r, self')
    /\ (b = true -> 0 < corruption_score (summary r))
    /\ (0 < corruption_score (summary r) <->
        b = true \/ epoch_matches data <> [] \/ backup_fires data = true).
Proof.
  intros Hw.
  destruct (analyze_all_run now data self Hw) as (r & self' & Hrun & _ & Hsc).
  unfold well_shaped in Hw.
  apply andb_true_iff in Hw. destruct Hw as [Hw _].
  apply andb_true_iff in Hw. destruct Hw as [Hst Hit].
  eexists. exists r, self'.
  split; [apply (has_corruption_indicators_run data Hst Hit)|].
  split; [exact Hrun|].
  pose proof (creation_epoch_is_epoch_match data) as Hce.
  unfold keychain_weight, timestamp_weight, backup_weight in Hsc. rewrite Hsc.
  destruct (circle_is_error data), (backup_fires data);
    destruct (unknown_view_names data) as [|u us];
    destruct (creation_epoch_items data) as [|c cs];
    destruct (epoch_matches data) as [|m ms];
    try (exfalso; apply Hce; [discriminate | reflexivity]);
    cbn [orb length]; split; try (intros; lia);
    split; try (intros; lia); try (intros; auto; fail);
    try (intros _; right; left; discriminate);
    intros [H|[H|H]]; try discriminate; try congruence; lia.
Qed.

Lemma indicators_imply_positive_score_witness :
  well_shaped snapshot_six_unknown = true
  /\ exists r self',
       conftest.has_corruption_indicators snapshot_six_unknown = Returns true
       /\ analyze_all "2025-11-27T13:00:00" snapshot_six_unknown __init__
          = (Returns r, self')
       /\ 0 < corruption_score (summary r).
Proof.
  split; [reflexivity|].
  destruct (indicators_imply_positive_score "2025-11-27T13:00:00"
              snapshot_six_unknown __init__ eq_refl)
    as (b & r & self' & Hb & Hrun & Hpos & _).
  exists r, self'.
  assert (Hbt : b = true) by (vm_compute in Hb; now inversion Hb).
  split; [now rewrite Hb, Hbt|]. split; [exact Hrun | exact (Hpos Hbt)].
Defined.

(** X8. [has_corruption_indicators] answers [True] as soon as
    [circle_status] is ["Error"]: it does not look at the views or at the
    keychain items, so it answers also when those have another shape. *)
Theorem error_status_is_found_first (data : value) :
  is_dict data = true ->
  is_dict (status_of data) = true ->
  circle_is_error data = true ->
  conftest.has_corruption_indicators data = Returns true.
Proof.
  unfold circle_is_error, circle_status_of, status_of, field_or,
    conftest.has_corruption_indicators.
  destruct data as [| | | | | |d]; try discriminate. cbn.
  destruct (dict_get d "status_keychain") as [[| | | | | |s]|]; try discriminate; cbn.
  intros _ _ Hc. now rewrite Hc.
Qed.

Lemma error_status_is_found_first_witness :
  conftest.has_corruption_indicators
    (VDict [("status_keychain",
             VDict [("circle_status", VStr "Error"); ("view_status", VList [])]);
            ("keychain_items", VNone)])
  = Returns true
  /\ fst (analyze_all "2025-11-27T13:00:00"
            (VDict [("status_keychain",
                     VDict [("circle_status", VStr "Error");
                            ("view_status", VList [])]);
                    ("keychain_items", VNone)]) __init__)
     = Raises AttributeError.
Proof.
  split; [|reflexivity].
  apply error_status_is_found_first; reflexivity.
Defined.

(** ** Issues and points *)

Ltac counted_run_tac :=
  unfold counted_run; norm;
  repeat split; try reflexivity; try lia; try (intros; discriminate).

Lemma keychain_status_counted (data : value) (self : EvidenceAnalyzer) :
  counted_run 2 self (analyze_keychain_status data self).
Proof.
  unfold analyze_keychain_status. run_py.
  destruct data as [| | | | | |d]; try solve [counted_run_tac].
  destruct (dict_get d "status_keychain") as [[| | | | | |s]|];
    try solve [counted_run_tac]; norm.
  destruct (py_eq_str _ "Error"); norm;
    (destruct (dict_get s "view_status") as [[| | | | | |vs]|];
     try solve [counted_run_tac]; norm;
     destruct (map fst (filter _ _)); counted_run_tac).
Qed.

Lemma timestamps_counted (data : value) (self : EvidenceAnalyzer) :
  counted_run 1 self (analyze_timestamps data self).
Proof.
  unfold analyze_timestamps.
  unfold bind at 1.
  destruct (py_get data "keychain_items" (VList []) self) as [[kis|e] s1] eqn:E1.
  2:{ counted_run_tac. }
  assert (s1 = self) as ->
    by (unfold py_get, ret, raise in E1; destruct data; inversion E1; reflexivity).
  unfold bind at 1.
  destruct (py_iter kis self) as [[todo|e] s2] eqn:E2.
  2:{ counted_run_tac. }
  assert (s2 = self) as ->
    by (unfold py_iter, ret, raise in E2; destruct kis; inversion E2; reflexivity).
  unfold bind at 1.
  pose proof (collect_epoch_items_self todo [] self) as Hs.
  destruct (collect_epoch_items todo [] self) as [[eis|e] s3]; simpl in Hs; subst s3.
  2:{ counted_run_tac. }
  destruct eis; run_py; counted_run_tac.
Qed.

Lemma backup_metadata_counted (data : value) (self : EvidenceAnalyzer) :
  counted_run 1 self (analyze_backup_metadata data self).
Proof.
  unfold analyze_backup_metadata. run_py.
  destruct data as [| | | | | |d]; try solve [counted_run_tac].
  destruct (match dict_get d "backup_metadata" with Some v => v | None => VDict [] end)
    as [| | | | | |md]; try solve [counted_run_tac]; norm.
  destruct (truthy _ && truthy _); norm; [|counted_run_tac].
  destruct (match dict_get d "integrity_checks" with
            | Some v => v
            | None => VDict []
            end);
    counted_run_tac.
Qed.

(** How many issues a report can hold and what they are worth. *)
Lemma analyze_all_counts (now : string) (data : value)
    (self self' : EvidenceAnalyzer) (r : Report) :
  analyze_all now data self = (Returns r, self') ->
  exists g1 g2 g3,
    findings r = [g1; g2; g3]
    /\ (length (issues g1) <= 2)%nat
    /\ (length (issues g2) <= 1)%nat
    /\ (length (issues g3) <= 1)%nat
    /\ Z.of_nat (length (issues g1)) + Z.of_nat (length (issues g2))
       + Z.of_nat (length (issues g3)) <= corruption_score (summary r)
    /\ (issues g1 = [] -> issues g2 = [] -> issues g3 = [] ->
        corruption_score (summary r) = 0).
Proof.
  unfold analyze_all. unfold bind at 1, reset at 1.
  unfold bind at 1.
  pose proof (keychain_status_counted data (mkAnalyzer [] 0)) as H1.
  pose proof (keychain_status_sound data (mkAnalyzer [] 0)) as H1'.
  unfold counted_run in H1.
  destruct (analyze_keychain_status data (mkAnalyzer [] 0)) as [[g1|e] [f1 s1]];
    [|discriminate].
  destruct H1' as (Hf1 & _). cbn in Hf1, H1. subst f1.
  unfold bind at 1, append_finding at 1. cbn [self_findings self_corruption_score app].
  unfold bind at 1.
  pose proof (timestamps_counted data (mkAnalyzer [g1] s1)) as H2.
  pose proof (timestamps_sound data (mkAnalyzer [g1] s1)) as H2'.
  unfold counted_run in H2.
  destruct (analyze_timestamps data (mkAnalyzer [g1] s1)) as [[g2|e] [f2 s2]];
    [|discriminate].
  destruct H2' as (Hf2 & _). cbn in Hf2, H2. subst f2.
  unfold bind at 1, append_finding at 1. cbn [self_findings self_corruption_score app].
  unfold bind at 1.
  pose proof (backup_metadata_counted data (mkAnalyzer [g1; g2] s2)) as H3.
  pose proof (backup_metadata_sound data (mkAnalyzer [g1; g2] s2)) as H3'.
  unfold counted_run in H3.
  destruct (analyze_backup_metadata data (mkAnalyzer [g1; g2] s2)) as [[g3|e] [f3 s3]];
    [|discriminate].
  destruct H3' as (Hf3 & _). cbn in Hf3, H3. subst f3.
  unfold bind at 1, append_finding at 1. cbn [self_findings self_corruption_score app].
  unfold bind, get_self, ret, _assess_corruption_level, _generate_recommendations.
  cbn [self_findings self_corruption_score].
  intros H. inversion H; subst; clear H.
  exists g1, g2, g3. cbn [findings summary corruption_score].
  destruct H1 as (L1 & P1 & Z1), H2 as (L2 & P2 & Z2), H3 as (L3 & P3 & Z3).
  repeat split; try assumption; try lia.
  intros E1 E2 E3. specialize (Z1 E1). specialize (Z2 E2). specialize (Z3 E3). lia.
Qed.

(** X9. A report is consistent with itself: it holds at most four issues
    in at most three high groups, every issue is worth at least one point,
    and the following say the same thing: the score is 0, there is no
    issue, no group is high, there is no recommendation, the label is the
    CLEAN one. *)
Theorem report_is_consistent
    (now : string) (data : value) (self self' : EvidenceAnalyzer) (r : Report) :
  analyze_all now data self = (Returns r, self') ->
  0 <= high_severity_findings (summary r) <= 3
  /\ high_severity_findings (summary r) <= total_issues (summary r) <= 4
  /\ total_issues (summary r) <= corruption_score (summary r)
  /\ (corruption_score (summary r) = 0 <-> total_issues (summary r) = 0)
  /\ (corruption_score (summary r) = 0 <-> high_severity_findings (summary r) = 0)
  /\ (corruption_score (summary r) = 0 <-> recommendations r = [])
  /\ (corruption_score (summary r) = 0 <->
      assessment (summary r) = "CLEAN - No corruption indicators found").
Proof.
  intros Hrun.
  destruct (analyze_all_inv _ _ _ _ _ Hrun)
    as (g1 & g2 & g3 & Hf & Hc1 & Hc2 & Hc3 & _ & _ & Hsc & Hpos & _ & Hti & Hhigh
        & Hlab & Hrec & _).
  destruct (analyze_all_counts _ _ _ _ _ Hrun)
    as (g1' & g2' & g3' & Hf' & L1 & L2 & L3 & Hle & Hzero).
  rewrite Hf in Hf'. inversion Hf'; subst g1' g2' g3'. clear Hf'.
  unfold _assess_corruption_level in Hlab. unfold _generate_recommendations in Hrec.
  rewrite Hsc in Hlab, Hrec. inversion Hlab as [Hl]. inversion Hrec as [Hr].
  clear Hlab Hrec.
  assert (Hh : high_severity_findings (summary r)
               = (if match issues g1 with [] => false | _ => true end then 1 else 0)
                 + ((if match issues g2 with [] => false | _ => true end then 1 else 0)
                    + ((if match issues g3 with [] => false | _ => true end
                        then 1 else 0) + 0))).
  { rewrite Hhigh. unfold sum_Z. cbn [map fold_right].
    unfold coherent in Hc1, Hc2, Hc3. rewrite Hc1, Hc2, Hc3.
    destruct (issues g1), (issues g2), (issues g3); reflexivity. }
  rewrite Hh, Hti. clear Hh Hti Hhigh Hl Hr.
  set (score := corruption_score (summary r)) in *.
  assert (Hz : issues g1 = [] /\ issues g2 = [] /\ issues g3 = [] -> score = 0)
    by (intros (E1 & E2 & E3); auto).
  destruct (issues g1) as [|i1 l1], (issues g2) as [|i2 l2], (issues g3) as [|i3 l3];
    cbn [length] in *;
    try (assert (score = 0) by (apply Hz; repeat split; reflexivity));
    destruct (Z.ltb_spec 0 score), (Z.leb_spec 10 score), (Z.leb_spec 5 score);
    cbn [app]; repeat split; intros; try lia; try discriminate; try reflexivity.
Qed.

Lemma report_is_consistent_witness :
  exists r self',
    analyze_all "2025-11-27T13:00:00" snapshot_severe __init__ = (Returns r, self')
    /\ total_issues (summary r) <= 4
    /\ total_issues (summary r) <= corruption_score (summary r).
Proof.
  destruct (analyze_all "2025-11-27T13:00:00" snapshot_severe __init__)
    as [[r|e] self'] eqn:Hrun; [|vm_compute in Hrun; discriminate].
  exists r, self'. split; [reflexivity|].
  destruct (report_is_consistent _ _ _ _ _ Hrun) as (_ & (_ & H4) & Hle & _).
  split; assumption.
Defined.

(** ** What the analysis reads *)

(** Two mappings that agree on the four sections are analysed alike. *)
Lemma analyze_all_agree
    (now : string) (d1 d2 : list (string * value)) (self1 self2 : EvidenceAnalyzer) :
  dict_get d1 "status_keychain" = dict_get d2 "status_keychain" ->
  dict_get d1 "keychain_items" = dict_get d2 "keychain_items" ->
  dict_get d1 "backup_metadata" = dict_get d2 "backup_metadata" ->
  dict_get d1 "integrity_checks" = dict_get d2 "integrity_checks" ->
  analyze_all now (VDict d1) self1 = analyze_all now (VDict d2) self2.
Proof.
  intros H1 H2 H3 H4.
  rewrite (analyze_all_resets now (VDict d1) self1 self2).
  unfold analyze_all, analyze_keychain_status, analyze_timestamps,
    analyze_backup_metadata, py_get.
  rewrite H1, H2, H3, H4. reflexivity.
Qed.

(** X10. The outcome of [analyze_all] and the state it leaves depend on
    four sections of the snapshot only: two snapshots that agree on
    [status_keychain], [keychain_items], [backup_metadata] and
    [integrity_checks] are analysed alike, whatever else they hold and
    whatever the analyzers held. *)
Theorem analyze_all_reads_four_sections
    (now : string) (d1 d2 : list (string * value)) (self1 self2 : EvidenceAnalyzer) :
  dict_get d1 "status_keychain" = dict_get d2 "status_keychain" ->
  dict_get d1 "keychain_items" = dict_get d2 "keychain_items" ->
  dict_get d1 "backup_metadata" = dict_get d2 "backup_metadata" ->
  dict_get d1 "integrity_checks" = dict_get d2 "integrity_checks" ->
  analyze_all now (VDict d1) self1 = analyze_all now (VDict d2) self2.
Proof.
  apply analyze_all_agree.
Qed.

Lemma analyze_all_reads_four_sections_witness :
  analyze_all "2025-11-27T13:00:00" snapshot_with_notes (mkAnalyzer [] 5)
  = analyze_all "2025-11-27T13:00:00"
      (VDict
         [("keychain_items",
           VList [VDict [("service", VStr "AutoUnlock");
                         ("creation_date", VStr "1970-01-01T00:11:19Z")];
                  VDict [("service", VStr "WiFi");
                         ("creation_date", VStr "2024-01-15T10:30:00Z");
                         ("modification_date", VStr "1970-01-01 00:00:00 +0000")]]);
          ("status_keychain",
           VDict [("circle_status", VStr "Error");
                  ("view_status", VDict [("Home", VStr "unknown")])])])
      __init__.
Proof.
  apply analyze_all_reads_four_sections; reflexivity.
Defined.

(** X11. On an input that is not a mapping (a list, a string, a number,
    [None]) [analyze_all] raises [AttributeError] at its first lookup and
    leaves the analyzer reset: no findings, score 0. *)
Theorem analyze_all_rejects_non_mapping
    (now : string) (data : value) (self : EvidenceAnalyzer) :
  is_dict data = false ->
  analyze_all now data self = (Raises AttributeError, mkAnalyzer [] 0).
Proof.
  destruct data; try discriminate; reflexivity.
Qed.

Lemma analyze_all_rejects_non_mapping_witness :
  is_dict (VList [snapshot_severe]) = false
  /\ analyze_all "2025-11-27T13:00:00" (VList [snapshot_severe]) (mkAnalyzer [] 16)
     = (Raises AttributeError, mkAnalyzer [] 0).
Proof.
  split; [reflexivity|].
  exact (analyze_all_rejects_non_mapping _ (VList [snapshot_severe]) _ eq_refl).
Defined.

Lemma stateless_ret {A : Type} (a : A) : stateless (ret a).
Proof. exists (Returns a). reflexivity. Qed.

Lemma stateless_raise {A : Type} (e : exn) : stateless (@raise A e).
Proof. exists (Raises e). reflexivity. Qed.

Lemma stateless_bind {A B : Type} (m : M A) (k : A -> M B) :
  stateless m -> (forall a, stateless (k a)) -> stateless (bind m k).
Proof.
  intros [[a|e] Hm] Hk.
  - destruct (Hk a) as [o Ho]. exists o. intros self. unfold bind.
    now rewrite Hm, Ho.
  - exists (Raises e). intros self. unfold bind. now rewrite Hm.
Qed.

Lemma stateless_py_get (obj : value) (key : string) (default : value) :
  stateless (py_get obj key default).
Proof. destruct obj; (eexists; intros self; reflexivity). Qed.

Lemma stateless_py_iter (obj : value) : stateless (py_iter obj).
Proof. destruct obj; (eexists; intros self; reflexivity). Qed.

Lemma stateless_py_contains (needle : string) (obj : value) :
  stateless (py_contains needle obj).
Proof. destruct obj; (eexists; intros self; reflexivity). Qed.

#[local] Hint Resolve stateless_ret stateless_raise stateless_py_get
  stateless_py_iter stateless_py_contains : pure_py.

Ltac stateless_tac :=
  repeat first
    [ progress auto with pure_py
    | apply stateless_bind; [|intros ?]
    | match goal with
      | |- stateless (if ?b then _ else _) => destruct b
      end ].

Lemma collect_epoch_items_stateless (todo : list value) :
  forall acc : list EpochItem, stateless (collect_epoch_items todo acc).
Proof.
  induction todo as [|item rest IH]; intros acc; cbn [collect_epoch_items];
    stateless_tac.
Qed.

(** When [analyze_timestamps] raises, it does so from every state and
    before it writes. *)
Lemma timestamps_raise_anywhere (data : value) (e : exn) (self0 : EvidenceAnalyzer) :
  fst (analyze_timestamps data self0) = Raises e ->
  forall self, analyze_timestamps data self = (Raises e, self).
Proof.
  unfold analyze_timestamps. intros H self.
  assert (Hp : stateless
    (keychain_items <- py_get data "keychain_items" (VList []) ;;
     todo <- py_iter keychain_items ;;
     collect_epoch_items todo []))
    by (stateless_tac; apply collect_epoch_items_stateless).
  destruct Hp as [o Ho].
  assert (Hsplit : forall s,
    (keychain_items <- py_get data "keychain_items" (VList []) ;;
     todo <- py_iter keychain_items ;;
     epoch_items <- collect_epoch_items todo [] ;;
     result <-
       (match epoch_items with
        | _ :: _ =>
            let result := append_issue (mkGroup "Timestamp Validation" [] "none")
              (epoch_timestamps
                 ("Found " ++ str_of_len epoch_items
                    ++ " keychain items with epoch timestamps")
                 epoch_items "high" "CloudCompromise.md Finding 2, line 145") in
            add_score (Z.of_nat (length epoch_items) * 2) ;;;
            ret (set_severity result "high")
        | [] => ret (mkGroup "Timestamp Validation" [] "none")
        end) ;;
     ret result) s
    = match o with
      | Raises e' => (Raises e', s)
      | Returns epoch_items =>
          (result <-
             (match epoch_items with
              | _ :: _ =>
                  let result := append_issue (mkGroup "Timestamp Validation" [] "none")
                    (epoch_timestamps
                       ("Found " ++ str_of_len epoch_items
                          ++ " keychain items with epoch timestamps")
                       epoch_items "high" "CloudCompromise.md Finding 2, line 145") in
                  add_score (Z.of_nat (length epoch_items) * 2) ;;;
                  ret (set_severity result "high")
              | [] => ret (mkGroup "Timestamp Validation" [] "none")
              end) ;;
           ret result) s
      end).
  { intros s. specialize (Ho s). unfold bind in Ho |- *.
    destruct (py_get data "keychain_items" (VList []) s) as [[kis|e1] s1];
      [|now inversion Ho].
    destruct (py_iter kis s1) as [[todo|e2] s2]; [|now inversion Ho].
    destruct (collect_epoch_items todo [] s2) as [[eis|e3] s3]; now inversion Ho. }
  rewrite Hsplit in H |- *.
  destruct o as [eis|e'].
  - exfalso. destruct eis; cbn in H; discriminate.
  - cbn in H. now inversion H.
Qed.

(** X12. When the timestamp analysis raises on a snapshot whose status
    section has its shape, [analyze_all] raises the same exception and the
    analyzer keeps what was done before: the keychain-status group alone
    and its points. *)
Theorem failed_analysis_keeps_finished_groups
    (now : string) (data : value) (e : exn) (self : EvidenceAnalyzer) :
  shape_status data = true ->
  fst (analyze_timestamps data __init__) = Raises e ->
  analyze_all now data self
  = (Raises e,
     mkAnalyzer
       [mkGroup "Keychain Status Analysis" (keychain_issues data)
          (group_severity (keychain_issues data))]
       (keychain_weight data)).
Proof.
  intros Hst Hraise.
  unfold analyze_all. unfold bind at 1, reset at 1.
  unfold bind at 1. rewrite (keychain_status_run _ _ Hst).
  unfold bind at 1, append_finding at 1. unfold scored.
  cbn [self_findings self_corruption_score app].
  unfold bind at 1.
  rewrite (timestamps_raise_anywhere data e __init__ Hraise).
  reflexivity.
Qed.

Lemma failed_analysis_keeps_finished_groups_witness :
  analyze_all "2025-11-27T13:00:00"
    (VDict [("status_keychain", VDict [("circle_status", VStr "Error")]);
            ("keychain_items", VList [VDict [("creation_date", VNone)]])])
    __init__
  = (Raises TypeError,
     mkAnalyzer
       [mkGroup "Keychain Status Analysis" [circle_issue] "high"] 3).
Proof.
  exact (failed_analysis_keeps_finished_groups "2025-11-27T13:00:00"
           (VDict [("status_keychain", VDict [("circle_status", VStr "Error")]);
                   ("keychain_items", VList [VDict [("creation_date", VNone)]])])
           TypeError __init__ eq_refl eq_refl).
Defined.

(** ** Fields that are there with another shape *)

(** X13. The modification date of a keychain item is searched only when
    the creation date does not match. An item whose creation date contains
    ["1970-01-01"] is reported whatever its modification date holds, and
    the issue shows that value as it is; an item whose creation date does
    not match and whose modification date is [None] makes the analysis
    raise [TypeError]. *)
Theorem epoch_creation_date_shields_modification_date
    (d fields : list (string * value)) (created : string) (other : value)
    (self : EvidenceAnalyzer) :
  dict_get d "keychain_items" = Some (VList [VDict fields]) ->
  dict_get fields "creation_date" = Some (VStr created) ->
  dict_get fields "modification_date" = Some other ->
  (str_contains "1970-01-01" created = true ->
   analyze_timestamps (VDict d) self
   = (Returns
        (mkGroup "Timestamp Validation"
           [epoch_timestamps "Found 1 keychain items with epoch timestamps"
              [mkEpochItem (field_or (VDict fields) "service" VNone)
                 (field_or (VDict fields) "account" VNone) (VStr created) other]
              "high" "CloudCompromise.md Finding 2, line 145"]
           "high"),
      scored self 2))
  /\ (str_contains "1970-01-01" created = false ->
      other = VNone ->
      analyze_timestamps (VDict d) self = (Raises TypeError, self)).
Proof.
  intros Hd Hc Hm. unfold analyze_timestamps, field_or, field, scored.
  split.
  - intros Hin. run_py. rewrite Hd. norm. rewrite Hc, Hm. norm. rewrite Hin. norm.
    destruct self. reflexivity.
  - intros Hin ->. run_py. rewrite Hd. norm. rewrite Hc, Hm. norm. rewrite Hin.
    reflexivity.
Qed.

Lemma epoch_creation_date_shields_modification_date_witness :
  fst (analyze_timestamps
         (VDict [("keychain_items",
                  VList [VDict [("creation_date", VStr "1970-01-01T00:11:19Z");
                                ("modification_date", VNone)]])]) __init__)
  = Returns
      (mkGroup "Timestamp Validation"
         [epoch_timestamps "Found 1 keychain items with epoch timestamps"
            [mkEpochItem VNone VNone (VStr "1970-01-01T00:11:19Z") VNone]
            "high" "CloudCompromise.md Finding 2, line 145"]
         "high").
Proof.
  rewrite (proj1 (epoch_creation_date_shields_modification_date
                    [("keychain_items",
                      VList [VDict [("creation_date", VStr "1970-01-01T00:11:19Z");
                                    ("modification_date", VNone)]])]
                    [("creation_date", VStr "1970-01-01T00:11:19Z");
                     ("modification_date", VNone)]
                    "1970-01-01T00:11:19Z" VNone __init__
                    eq_refl eq_refl eq_refl) eq_refl).
  reflexivity.
Defined.

(** X14. A section that is there with the value [None] is not taken as
    missing: the default of a lookup is used for an absent key only.
    [status_keychain] or [backup_metadata] set to [None] raise
    [AttributeError], [keychain_items] set to [None] raises [TypeError],
    and [integrity_checks] set to [None] raises [AttributeError] exactly
    when the backup-activity rule fires. *)
Theorem null_section_is_not_missing
    (now : string) (d : list (string * value)) (self : EvidenceAnalyzer) :
  (dict_get d "status_keychain" = Some VNone ->
   analyze_all now (VDict d) self = (Raises AttributeError, mkAnalyzer [] 0))
  /\ (dict_get d "keychain_items" = Some VNone ->
      analyze_timestamps (VDict d) self = (Raises TypeError, self))
  /\ (dict_get d "backup_metadata" = Some VNone ->
      analyze_backup_metadata (VDict d) self = (Raises AttributeError, self))
  /\ (dict_get d "integrity_checks" = Some VNone ->
      absent_or is_dict (VDict d) "backup_metadata" = true ->
      analyze_backup_metadata (VDict d) self
      = if backup_fires (VDict d) then (Raises AttributeError, self)
        else (Returns (mkGroup "Backup Activity Analysis" [] "none"), self)).
Proof.
  split; [|split; [|split]].
  - intros H. unfold analyze_all, analyze_keychain_status. run_py. now rewrite H.
  - intros H. unfold analyze_timestamps. run_py. now rewrite H.
  - intros H. unfold analyze_backup_metadata. run_py. now rewrite H.
  - intros H Hmd.
    unfold absent_or, field in Hmd.
    unfold analyze_backup_metadata, backup_fires, sync_active_of, last_backup_of,
      metadata_of, field_or, field. run_py. rewrite H.
    destruct (dict_get d "backup_metadata") as [[| | | | | |md]|];
      try discriminate; norm;
      try destruct (dict_get md "SyncZoneFetched") as [sa|]; norm;
      try destruct (dict_get md "NilBackupDateFetchDate") as [lb|]; norm;
      try destruct (truthy sa); norm; try destruct (truthy lb); reflexivity.
Qed.

Lemma null_section_is_not_missing_witness :
  analyze_all "2025-11-27T13:00:00" (VDict [("status_keychain", VNone)]) __init__
  = (Raises AttributeError, mkAnalyzer [] 0)
  /\ fst (analyze_all "2025-11-27T13:00:00" (VDict []) __init__)
     <> Raises AttributeError.
Proof.
  split; [|discriminate].
  exact (proj1 (null_section_is_not_missing "2025-11-27T13:00:00"
                  [("status_keychain", VNone)] __init__) eq_refl).
Defined.

(** ** The verdict *)

(** Label and recommendations are read off the score. *)
Lemma report_verdict (now : string) (data : value) (self self' : EvidenceAnalyzer)
    (r : Report) :
  analyze_all now data self = (Returns r, self') ->
  let score := corruption_score (summary r) in
  assessment (summary r)
  = (if 10 <=? score then "SEVERE - Multiple corruption indicators present"%string
     else if 5 <=? score then "MODERATE - Significant corruption detected"%string
     else if 0 <? score then "MILD - Some issues detected"%string
     else "CLEAN - No corruption indicators found"%string)
  /\ recommendations r
     = (if 10 <=? score
        then ["URGENT: Severe corruption detected - avoid using this backup"%string]
        else [])
       ++ (if 0 <? score
           then ["DO NOT restore from this backup to new devices"%string;
                 "Collect sysdiagnose for documentation"%string;
                 "Contact Apple Support with case reference"%string;
                 "Consider creating new clean backup after remediation"%string]
           else []).
Proof.
  intros Hrun score.
  destruct (analyze_all_inv _ _ _ _ _ Hrun)
    as (g1 & g2 & g3 & _ & _ & _ & _ & _ & _ & Hsc & _ & _ & _ & _ & Hlab & Hrec & _).
  unfold _assess_corruption_level in Hlab. unfold _generate_recommendations in Hrec.
  rewrite Hsc in Hlab, Hrec. fold score in Hlab, Hrec.
  inversion Hlab as [Hl]. inversion Hrec as [Hr].
  split; [reflexivity|].
  destruct (10 <=? score), (0 <? score); reflexivity.
Qed.

Lemma score_is_monotone (data1 data2 : value) :
  sig_le (signatures data1) (signatures data2) ->
  keychain_weight data1 + timestamp_weight data1 + backup_weight data1
  <= keychain_weight data2 + timestamp_weight data2 + backup_weight data2.
Proof.
  intros (Hc & Hu & He & Hb). cbn in Hc, Hu, He, Hb.
  unfold keychain_weight, timestamp_weight, backup_weight.
  destruct (circle_is_error data1), (circle_is_error data2);
    try (specialize (Hc eq_refl); discriminate);
    destruct (backup_fires data1), (backup_fires data2);
    try (specialize (Hb eq_refl); discriminate); lia.
Qed.

(** X15. More signatures never soften the verdict: when a snapshot shows
    at least the signatures of another, it gets at least as many
    recommendations, it is SEVERE if the other is, and the other is CLEAN
    if it is. *)
Theorem verdict_is_monotone
    (now1 now2 : string) (data1 data2 : value) (self1 self2 : EvidenceAnalyzer) :
  well_shaped data1 = true ->
  well_shaped data2 = true ->
  sig_le (signatures data1) (signatures data2) ->
  exists r1 r2 self1' self2',
    analyze_all now1 data1 self1 = (Returns r1, self1')
    /\ analyze_all now2 data2 self2 = (Returns r2, self2')
    /\ (length (recommendations r1) <= length (recommendations r2))%nat
    /\ (assessment (summary r1) = "SEVERE - Multiple corruption indicators present" ->
        assessment (summary r2) = "SEVERE - Multiple corruption indicators present")
    /\ (assessment (summary r2) = "CLEAN - No corruption indicators found" ->
        assessment (summary r1) = "CLEAN - No corruption indicators found").
Proof.
  intros Hw1 Hw2 Hle.
  destruct (analyze_all_run now1 data1 self1 Hw1) as (r1 & s1 & Hrun1 & _ & Hsc1).
  destruct (analyze_all_run now2 data2 self2 Hw2) as (r2 & s2 & Hrun2 & _ & Hsc2).
  exists r1, r2, s1, s2. split; [exact Hrun1|]. split; [exact Hrun2|].
  pose proof (score_is_monotone data1 data2 Hle) as Hmono.
  rewrite <- Hsc1, <- Hsc2 in Hmono.
  destruct (report_verdict _ _ _ _ _ Hrun1) as [Hl1 Hr1].
  destruct (report_verdict _ _ _ _ _ Hrun2) as [Hl2 Hr2].
  cbn zeta in Hl1, Hr1, Hl2, Hr2. rewrite Hl1, Hr1, Hl2, Hr2.
  destruct (Z.leb_spec 10 (corruption_score (summary r1))),
    (Z.leb_spec 10 (corruption_score (summary r2))),
    (Z.leb_spec 5 (corruption_score (summary r1))),
    (Z.leb_spec 5 (corruption_score (summary r2))),
    (Z.ltb_spec 0 (corruption_score (summary r1))),
    (Z.ltb_spec 0 (corruption_score (summary r2)));
    try lia; cbn [app length]; repeat split; intros; try lia; try discriminate;
    try reflexivity.
Qed.

Lemma verdict_is_monotone_witness :
  sig_le (signatures snapshot_six_unknown) (signatures snapshot_severe)
  /\ exists r1 r2 self1' self2',
       analyze_all "2025-11-27T13:00:00" snapshot_six_unknown __init__
         = (Returns r1, self1')
       /\ analyze_all "2025-11-27T13:05:00" snapshot_severe __init__
          = (Returns r2, self2')
       /\ (length (recommendations r1) <= length (recommendations r2))%nat.
Proof.
  assert (H : sig_le (signatures snapshot_six_unknown) (signatures snapshot_severe)).
  { repeat split; cbn; try discriminate; try lia; auto. }
  split; [exact H|].
  destruct (verdict_is_monotone "2025-11-27T13:00:00" "2025-11-27T13:05:00"
              snapshot_six_unknown snapshot_severe __init__ __init__
              eq_refl eq_refl H)
    as (r1 & r2 & s1 & s2 & H1 & H2 & Hlen & _).
  exists r1, r2, s1, s2. repeat split; assumption.
Defined.

Lemma forallb_Permutation {A : Type} (p : A -> bool) (l1 l2 : list A) :
  Permutation l1 l2 -> forallb p l1 = forallb p l2.
Proof.
  induction 1; cbn; try congruence.
  - destruct (p x), (p y); reflexivity.
Qed.

Lemma filter_Permutation {A : Type} (p : A -> bool) (l1 l2 : list A) :
  Permutation l1 l2 -> Permutation (filter p l1) (filter p l2).
Proof.
  induction 1; cbn.
  - constructor.
  - destruct (p x); [now constructor | assumption].
  - destruct (p x), (p y); try apply Permutation_refl. apply perm_swap.
  - eapply Permutation_trans; eassumption.
Qed.

Lemma summary_ext (a b : Summary) :
  total_findings a = total_findings b ->
  total_issues a = total_issues b ->
  high_severity_findings a = high_severity_findings b ->
  corruption_score a = corruption_score b ->
  assessment a = assessment b ->
  a = b.
Proof.
  destruct a, b; cbn; intros; subst; reflexivity.
Qed.

(** The same, for a snapshot that lists [keychain_items] first. *)
Lemma verdict_ignores_item_order_head
    (now : string) (rest : list (string * value)) (items1 items2 : list value)
    (self1 self2 : EvidenceAnalyzer) :
  Permutation items1 items2 ->
  well_shaped (VDict (("keychain_items", VList items1) :: rest)) = true ->
  exists r1 r2 self1' self2',
    analyze_all now (VDict (("keychain_items", VList items1) :: rest)) self1
      = (Returns r1, self1')
    /\ analyze_all now (VDict (("keychain_items", VList items2) :: rest)) self2
       = (Returns r2, self2')
    /\ summary r1 = summary r2
    /\ recommendations r1 = recommendations r2.
Proof.
  intros Hp Hw1.
  set (D1 := VDict (("keychain_items", VList items1) :: rest)) in *.
  set (D2 := VDict (("keychain_items", VList items2) :: rest)).
  assert (Hw2 : well_shaped D2 = true).
  { unfold well_shaped, shape_status, shape_items, shape_backup in Hw1 |- *.
    cbn in Hw1 |- *. now rewrite <- (forallb_Permutation shape_item _ _ Hp). }
  assert (Hlen : length (epoch_matches D1) = length (epoch_matches D2)).
  { apply Permutation_length. apply (filter_Permutation is_epoch_item _ _ Hp). }
  destruct (analyze_all_run now D1 self1 Hw1) as (r1 & s1 & Hrun1 & Hf1 & Hsc1).
  destruct (analyze_all_run now D2 self2 Hw2) as (r2 & s2 & Hrun2 & Hf2 & Hsc2).
  exists r1, r2, s1, s2. split; [exact Hrun1|]. split; [exact Hrun2|].
  assert (Hscore : corruption_score (summary r1) = corruption_score (summary r2)).
  { rewrite Hsc1, Hsc2. unfold timestamp_weight. rewrite Hlen. reflexivity. }
  destruct (report_verdict _ _ _ _ _ Hrun1) as [Hl1 Hr1].
  destruct (report_verdict _ _ _ _ _ Hrun2) as [Hl2 Hr2].
  cbn zeta in Hl1, Hr1, Hl2, Hr2.
  split; [|now rewrite Hr1, Hr2, Hscore].
  destruct (analyze_all_inv _ _ _ _ _ Hrun1)
    as (a1 & a2 & a3 & Ha & _ & _ & _ & _ & _ & _ & _ & Htf1 & Hti1 & Hh1 & _).
  destruct (analyze_all_inv _ _ _ _ _ Hrun2)
    as (b1 & b2 & b3 & Hb & _ & _ & _ & _ & _ & _ & _ & Htf2 & Hti2 & Hh2 & _).
  rewrite Hf1 in Ha. inversion Ha; subst a1 a2 a3. clear Ha.
  rewrite Hf2 in Hb. inversion Hb; subst b1 b2 b3. clear Hb.
  cbn [issues severity map] in Hti1, Hti2, Hh1, Hh2.
  assert (Hts : timestamp_issues D1 = [] <-> timestamp_issues D2 = []).
  { unfold timestamp_issues.
    destruct (epoch_matches D1), (epoch_matches D2); cbn in Hlen;
      try discriminate; split; intros; try reflexivity; discriminate. }
  assert (Hti : total_issues (summary r1) = total_issues (summary r2)).
  { rewrite Hti1, Hti2.
    change (keychain_issues D2) with (keychain_issues D1).
    change (backup_issues D2) with (backup_issues D1).
    unfold timestamp_issues in *.
    destruct (epoch_matches D1), (epoch_matches D2); cbn in Hlen;
      try discriminate; reflexivity. }
  assert (Hh : high_severity_findings (summary r1)
               = high_severity_findings (summary r2)).
  { rewrite Hh1, Hh2.
    change (keychain_issues D2) with (keychain_issues D1).
    change (backup_issues D2) with (backup_issues D1).
    unfold timestamp_issues in *.
    destruct (epoch_matches D1), (epoch_matches D2); cbn in Hlen;
      try discriminate; reflexivity. }
  apply summary_ext; try assumption.
  - now rewrite Htf1, Htf2.
  - now rewrite Hl1, Hl2, Hscore.
Qed.

(** X16. The order of the keychain items does not matter to the verdict:
    two snapshots that differ in that order only have the same summary
    (counts, score and label) and the same recommendations. *)
Theorem verdict_ignores_item_order
    (now : string) (d1 d2 : list (string * value)) (items1 items2 : list value)
    (self1 self2 : EvidenceAnalyzer) :
  dict_get d1 "keychain_items" = Some (VList items1) ->
  dict_get d2 "keychain_items" = Some (VList items2) ->
  Permutation items1 items2 ->
  dict_get d1 "status_keychain" = dict_get d2 "status_keychain" ->
  dict_get d1 "backup_metadata" = dict_get d2 "backup_metadata" ->
  dict_get d1 "integrity_checks" = dict_get d2 "integrity_checks" ->
  well_shaped (VDict d1) = true ->
  exists r1 r2 self1' self2',
    analyze_all now (VDict d1) self1 = (Returns r1, self1')
    /\ analyze_all now (VDict d2) self2 = (Returns r2, self2')
    /\ summary r1 = summary r2
    /\ recommendations r1 = recommendations r2.
Proof.
  intros Hk1 Hk2 Hp Hs Hb Hi Hw.
  assert (Hw' : well_shaped (VDict (("keychain_items", VList items1) :: d1)) = true).
  { unfold well_shaped, shape_status, shape_items, shape_backup, absent_or, field
      in Hw |- *. rewrite Hk1 in Hw. exact Hw. }
  destruct (verdict_ignores_item_order_head now d1 items1 items2 self1 self2 Hp Hw')
    as (r1 & r2 & s1 & s2 & H1 & H2 & Hsum & Hrec).
  exists r1, r2, s1, s2.
  split; [|split; [|split; assumption]].
  - rewrite <- H1. apply analyze_all_agree; cbn; congruence.
  - rewrite <- H2. apply analyze_all_agree; cbn; congruence.
Qed.

Lemma verdict_ignores_item_order_witness :
  exists r1 r2 self1' self2',
    analyze_all "2025-11-27T13:00:00"
      (VDict [("device", VStr "iPhone");
              ("keychain_items",
               VList [VDict [("creation_date", VStr "1970-01-01T00:11:19Z")];
                      VDict [("creation_date", VStr "2024-01-15T10:30:00Z")]])])
      __init__ = (Returns r1, self1')
    /\ analyze_all "2025-11-27T13:00:00"
         (VDict [("keychain_items",
                  VList [VDict [("creation_date", VStr "2024-01-15T10:30:00Z")];
                         VDict [("creation_date", VStr "1970-01-01T00:11:19Z")]])])
         __init__ = (Returns r2, self2')
    /\ summary r1 = summary r2.
Proof.
  destruct (verdict_ignores_item_order "2025-11-27T13:00:00"
              [("device", VStr "iPhone");
               ("keychain_items",
                VList [VDict [("creation_date", VStr "1970-01-01T00:11:19Z")];
                       VDict [("creation_date", VStr "2024-01-15T10:30:00Z")]])]
              [("keychain_items",
                VList [VDict [("creation_date", VStr "2024-01-15T10:30:00Z")];
                       VDict [("creation_date", VStr "1970-01-01T00:11:19Z")]])]
              _ _ __init__ __init__ eq_refl eq_refl (perm_swap _ _ _)
              eq_refl eq_refl eq_refl eq_refl)
    as (r1 & r2 & s1 & s2 & H1 & H2 & Hs & _).
  exists r1, r2, s1, s2. repeat split; assumption.
Defined.

(** ** The command line *)




(** X18. When the file loads to something that is not a mapping (a list,
    a string, a number, [null]), [main] ends with an [AttributeError] that
    nothing catches: no report is printed and no exit code is returned. *)
Theorem main_crashes_on_non_mapping
    (args : Args) (w : World) (p : string) (data : value) :
  mock args = false ->
  given (path args) = Some p ->
  load_json w p = Contents data ->
  is_dict data = false ->
  main args w = Some (Err (Builtin AttributeError), []).
Proof.
  intros Hmock Hpath Hload Hd.
  unfold main. rewrite Hmock, Hpath, Hload. unfold analyse_and_report.
  destruct data; try discriminate; reflexivity.
Qed.

Lemma main_crashes_on_non_mapping_witness :
  main (mkArgs (Some "capture.json") false true None)
    (mkWorld "fixtures/corrupted_keychain.json" "fixtures/backup_metadata.json"
       (fun _ => true) (fun _ => Contents (VList [snapshot_severe])) (fun _ => None)
       "2025-11-27T13:00:00")
  = Some (Err (Builtin AttributeError), []).
Proof.
  apply (main_crashes_on_non_mapping _ _ "capture.json" (VList [snapshot_severe]));
    reflexivity.
Defined.



(** X20. A file that cannot be read or parsed never makes [main] fail
    when it was named on the command line: the error is printed and the
    exit code is 1, as when no path is given at all (an empty path counts
    as none). With [--mock] the same failure on a fixture escapes as an
    exception. *)
Theorem main_catches_load_errors_of_a_path_only (args : Args) (w : World) :
  (mock args = false ->
   given (path args) = None ->
   main args w = Some (Ok 1, [PrintedHelp]))
  /\ (mock args = false ->
      forall p message,
        given (path args) = Some p ->
        load_json w p = Unreadable message ->
        main args w
        = Some (Ok 1,
                [Printed ("Error loading data from " ++ p ++ ": " ++ message)]))
  /\ (mock args = false ->
      exists res out,
        main args w = Some (res, out)
        /\ forall message, res <> Err (ReadError message))
  /\ (mock args = true ->
      path_exists w (data_path w) = true ->
      forall message,
        load_json w (data_path w) = Unreadable message ->
        main args w = Some (Err (ReadError message), [])).
Proof.
  split; [|split; [|split]].
  - intros Hm Hp. unfold main. now rewrite Hm, Hp.
  - intros Hm p message Hp Hl. unfold main. now rewrite Hm, Hp, Hl.
  - intros Hm. unfold main. rewrite Hm.
    destruct (given (path args)) as [p|].
    + destruct (load_json w p) as [data|message].
      * unfold analyse_and_report.
        destruct (analyze_all (utcnow w) data __init__) as [[r|e] s].
        -- destruct (given (output args)) as [o|];
             [destruct (open_for_write w o)|];
             eexists; eexists; (split; [reflexivity | intros; discriminate]).
        -- eexists. eexists. split; [reflexivity | intros; discriminate].
      * eexists. eexists. split; [reflexivity | intros; discriminate].
    + eexists. eexists. split; [reflexivity | intros; discriminate].
  - intros Hm He message Hl. unfold main. now rewrite Hm, He, Hl.
Qed.

Lemma main_catches_load_errors_of_a_path_only_witness :
  main (mkArgs (Some "") false false None)
    (mkWorld "fixtures/corrupted_keychain.json" "fixtures/backup_metadata.json"
       (fun _ => true) (fun _ => Unreadable "Expecting value") (fun _ => None)
       "2025-11-27T13:00:00")
  = Some (Ok 1, [PrintedHelp])
  /\ main (mkArgs (Some "capture.json") false false None)
       (mkWorld "fixtures/corrupted_keychain.json" "fixtures/backup_metadata.json"
          (fun _ => true) (fun _ => Unreadable "Expecting value") (fun _ => None)
          "2025-11-27T13:00:00")
     = Some (Ok 1,
             [Printed "Error loading data from capture.json: Expecting value"])
  /\ main (mkArgs None true false None)
       (mkWorld "fixtures/corrupted_keychain.json" "fixtures/backup_metadata.json"
          (fun _ => true) (fun _ => Unreadable "Expecting value") (fun _ => None)
          "2025-11-27T13:00:00")
     = Some (Err (ReadError "Expecting value"), []).
Proof.
  split; [|split].
  - apply (proj1 (main_catches_load_errors_of_a_path_only _ _)); reflexivity.
  - exact (proj1 (proj2 (main_catches_load_errors_of_a_path_only
                            (mkArgs (Some "capture.json") false false None)
                            (mkWorld "fixtures/corrupted_keychain.json"
                               "fixtures/backup_metadata.json"
                               (fun _ => true)
                               (fun _ => Unreadable "Expecting value")
                               (fun _ => None) "2025-11-27T13:00:00")))
             eq_refl "capture.json" "Expecting value" eq_refl eq_refl).
  - exact (proj2 (proj2 (proj2 (main_catches_load_errors_of_a_path_only
                                   (mkArgs None true false None)
                            (mkWorld "fixtures/corrupted_keychain.json"
                               "fixtures/backup_metadata.json"
                               (fun _ => true)
                               (fun _ => Unreadable "Expecting value")
                               (fun _ => None) "2025-11-27T13:00:00"))))
             eq_refl eq_refl "Expecting value" eq_refl).
Defined.

(** ** Truth values and the order of the rules *)

(** X21. The backup-activity rule tests truth values, not types: it adds
    its issue exactly when [SyncZoneFetched] and [NilBackupDateFetchDate]
    are both true as Python sees them. So a flag given as any non-empty
    string (["false"] included) counts as set, and a timestamp given as the
    empty string, as the number 0 or as [None] counts as missing. *)
Theorem backup_rule_tests_truth_values (data : value) (self : EvidenceAnalyzer) :
  shape_backup data = true ->
  exists g,
    fst (analyze_backup_metadata data self) = Returns g
    /\ (issues g <> [] <->
        truthy (sync_active_of data) = true /\ truthy (last_backup_of data) = true)
    /\ (forall s,
          sync_active_of data = VStr s -> s <> ""%string ->
          truthy (last_backup_of data) = true -> issues g <> [])
    /\ (last_backup_of data = VStr "" \/ last_backup_of data = VInt 0
        \/ last_backup_of data = VNone ->
        issues g = []).
Proof.
  intros Hs. rewrite (backup_metadata_run data self Hs).
  eexists. split; [reflexivity|]. cbn [issues].
  unfold backup_issues, backup_fires.
  split; [|split].
  - destruct (truthy (sync_active_of data)), (truthy (last_backup_of data));
      cbn; split; intros H; try discriminate; try congruence;
      try (destruct H; discriminate); split; reflexivity.
  - intros s Hsa Hne Hlb. rewrite Hsa, Hlb. cbn.
    apply String.eqb_neq in Hne. rewrite Hne. discriminate.
  - intros [H|[H|H]]; rewrite H; cbn; now rewrite andb_false_r.
Qed.

Lemma backup_rule_tests_truth_values_witness :
  shape_backup
    (VDict [("backup_metadata",
             VDict [("SyncZoneFetched", VStr "false");
                    ("NilBackupDateFetchDate", VStr "2025-11-27T12:59:09Z")])])
  = true
  /\ exists g,
       fst (analyze_backup_metadata
              (VDict [("backup_metadata",
                       VDict [("SyncZoneFetched", VStr "false");
                              ("NilBackupDateFetchDate",
                               VStr "2025-11-27T12:59:09Z")])]) __init__)
       = Returns g
       /\ issues g <> [].
Proof.
  split; [reflexivity|].
  destruct (backup_rule_tests_truth_values
              (VDict [("backup_metadata",
                       VDict [("SyncZoneFetched", VStr "false");
                              ("NilBackupDateFetchDate",
                               VStr "2025-11-27T12:59:09Z")])]) __init__ eq_refl)
    as (g & Hg & _ & Hstr & _).
  exists g. split; [exact Hg|].
  apply (Hstr "false"%string); [reflexivity | discriminate | reflexivity].
Defined.

(** X22. The three analysis methods do not depend on one another: on a
    snapshot each returns the same group from every analyzer state and
    adds the same points to whatever score is there, without resetting it
    and without touching [self.findings]; run in the order of the source
    or in the opposite order they leave the same state. *)
Theorem analysis_methods_are_independent (data : value) (self : EvidenceAnalyzer) :
  well_shaped data = true ->
  (forall other,
      fst (analyze_keychain_status data self)
      = fst (analyze_keychain_status data other)
      /\ fst (analyze_timestamps data self) = fst (analyze_timestamps data other)
      /\ fst (analyze_backup_metadata data self)
         = fst (analyze_backup_metadata data other))
  /\ snd (analyze_backup_metadata data
            (snd (analyze_timestamps data
                    (snd (analyze_keychain_status data self)))))
     = snd (analyze_keychain_status data
              (snd (analyze_timestamps data
                      (snd (analyze_backup_metadata data self)))))
  /\ self_findings
       (snd (analyze_backup_metadata data
               (snd (analyze_timestamps data
                       (snd (analyze_keychain_status data self))))))
     = self_findings self
  /\ self_corruption_score
       (snd (analyze_backup_metadata data
               (snd (analyze_timestamps data
                       (snd (analyze_keychain_status data self))))))
     = self_corruption_score self
       + (keychain_weight data + timestamp_weight data + backup_weight data).
Proof.
  unfold well_shaped. intros H.
  apply andb_true_iff in H. destruct H as [H H3].
  apply andb_true_iff in H. destruct H as [H1 H2].
  assert (Hk : forall s, analyze_keychain_status data s
                         = (Returns (mkGroup "Keychain Status Analysis"
                                       (keychain_issues data)
                                       (group_severity (keychain_issues data))),
                            scored s (keychain_weight data)))
    by (intros s; apply (keychain_status_run _ _ H1)).
  assert (Ht : forall s, analyze_timestamps data s
                         = (Returns (mkGroup "Timestamp Validation"
                                       (timestamp_issues data)
                                       (group_severity (timestamp_issues data))),
                            scored s (timestamp_weight data)))
    by (intros s; apply (timestamps_run _ _ H2)).
  assert (Hb : forall s, analyze_backup_metadata data s
                         = (Returns (mkGroup "Backup Activity Analysis"
                                       (backup_issues data)
                                       (group_severity (backup_issues data))),
                            scored s (backup_weight data)))
    by (intros s; apply (backup_metadata_run _ _ H3)).
  split; [|split; [|split]].
  - intros other. rewrite !Hk, !Ht, !Hb. repeat split.
  - rewrite (Hk self), (Hb self). cbn [snd]. rewrite !Ht. cbn [snd].
    rewrite Hk, Hb. unfold scored. cbn. f_equal. lia.
  - rewrite (Hk self). cbn [snd]. rewrite Ht. cbn [snd]. rewrite Hb. reflexivity.
  - rewrite (Hk self). cbn [snd]. rewrite Ht. cbn [snd]. rewrite Hb.
    unfold scored. cbn. lia.
Qed.

Lemma analysis_methods_are_independent_witness :
  well_shaped snapshot_severe = true
  /\ self_corruption_score
       (snd (analyze_backup_metadata snapshot_severe
               (snd (analyze_timestamps snapshot_severe
                       (snd (analyze_keychain_status snapshot_severe
                               (mkAnalyzer [] 100)))))))
     = 116.
Proof.
  split; [reflexivity|].
  rewrite (proj2 (proj2 (proj2 (analysis_methods_are_independent snapshot_severe
                                  (mkAnalyzer [] 100) eq_refl)))).
  reflexivity.
Defined.
